(** * CHARLOTTE MVP: the pattern scanner and the plugin dispatcher

    A shallow embedding of [plugins/vuln_scanner.py] and
    [core/plugin_manager.py], followed by the properties proved of them. *)

From Stdlib Require Import ZArith NArith Lia String Ascii.
From stdpp Require Import base decidable option numbers list sorting gmap.

Local Open Scope Z_scope.

(** ** Python strings

    A Python [str] is a sequence of Unicode code points. *)

Definition pystr := list N.

(** A source literal.  The double quote and the control characters have no
    spelling inside a literal and are written by code point. *)
Definition py (s : string) : pystr := map N_of_ascii (list_ascii_of_string s).

Definition DQUOTE : N := 34.
Definition QUOTE : N := 39.
Definition NL : N := 10.

Module Py.

(** [str.isspace] of one code point: the Unicode white space of CPython,
    which is also what the regular expression class [\s] accepts. *)
Definition isspace (c : N) : bool :=
  ((9 <=? c) && (c <=? 13) || (28 <=? c) && (c <=? 32)
   || (c =? 133) || (c =? 160) || (c =? 5760)
   || (8192 <=? c) && (c <=? 8202)
   || (c =? 8232) || (c =? 8233) || (c =? 8239) || (c =? 8287)
   || (c =? 12288))%N.

(** [s.lstrip()], [s.rstrip()] and [s.strip()]. *)
Fixpoint lstrip (s : pystr) : pystr :=
  match s with
  | c :: s' => if isspace c then lstrip s' else s
  | [] => []
  end.

Definition rstrip (s : pystr) : pystr := rev (lstrip (rev s)).

Definition strip (s : pystr) : pystr := rstrip (lstrip s).

(** [s.split(sep)] for a one-character separator: never empty, and a
    trailing separator leaves a last empty piece. *)
Fixpoint split (sep : N) (s : pystr) : list pystr :=
  match s with
  | [] => [[]]
  | c :: s' =>
      if (c =? sep)%N then [] :: split sep s'
      else match split sep s' with
           | piece :: pieces => (c :: piece) :: pieces
           | [] => [[c]]
           end
  end.

(** [enumerate(l, start)]. *)
Fixpoint enumerate {A} (l : list A) (start : nat) : list (nat * A) :=
  match l with
  | [] => []
  | x :: l' => (start, x) :: enumerate l' (S start)
  end.

(** The lower-case form of an ASCII capital; other code points unchanged. *)
Definition ascii_lower (c : N) : N :=
  if ((65 <=? c) && (c <=? 90))%N then (c + 32)%N else c.

(** [s.lower()] on the ASCII letters.  The scanner only asks whether the
    lowered suffix is one of the scannable extensions; a suffix holding a code
    point outside ASCII lowers to a string that is none of them (the only such
    code point lowering into ASCII is the Kelvin sign, to "k", which no
    extension contains), so the membership test is decided exactly. *)
Definition lower (s : pystr) : pystr := map ascii_lower s.

(** [s.rfind(c)]: the last index of [c], or -1. *)
Fixpoint rfind_from (c : N) (s : pystr) (i : Z) (last : Z) : Z :=
  match s with
  | [] => last
  | d :: s' => rfind_from c s' (i + 1) (if (d =? c)%N then i else last)
  end.

Definition rfind (c : N) (s : pystr) : Z := rfind_from c s 0 (-1).

(** [str(n)] of an integer. *)
Fixpoint digits (d : Decimal.uint) : pystr :=
  match d with
  | Decimal.Nil => []
  | Decimal.D0 d => 48%N :: digits d
  | Decimal.D1 d => 49%N :: digits d
  | Decimal.D2 d => 50%N :: digits d
  | Decimal.D3 d => 51%N :: digits d
  | Decimal.D4 d => 52%N :: digits d
  | Decimal.D5 d => 53%N :: digits d
  | Decimal.D6 d => 54%N :: digits d
  | Decimal.D7 d => 55%N :: digits d
  | Decimal.D8 d => 56%N :: digits d
  | Decimal.D9 d => 57%N :: digits d
  end.

Definition str_of_int (z : Z) : pystr :=
  match z with
  | Zneg p => 45%N :: digits (Pos.to_uint p)
  | _ => digits (N.to_uint (Z.to_N z))
  end.

(** [c * n]: a character repeated. *)
Definition times (c : N) (n : nat) : pystr := replicate n c.

End Py.

(** ** Regular expressions

    The fragment of Python's [re] syntax the catalog is written in, matched
    the way [re.search(pattern, line, re.IGNORECASE)] decides whether a match
    exists: a sequence of single-character atoms, each possibly under a greedy
    counted repetition, and negative lookahead on a sequence of atoms. *)

Module re.

Inductive atom :=
  | Lit (c : N)             (* a literal character *)
  | Space                   (* \s *)
  | Dot                     (* .  *)
  | OneOf (cs : list N)     (* [...] *)
  | NoneOf (cs : list N).   (* [^...] *)

Inductive item :=
  | One (a : atom)
  | Rep (a : atom) (lo : nat) (hi : option nat)  (* a{lo,hi}; a* a+ a? a{lo,} *)
  | NotAhead (p : list atom).                    (* (?!p) *)

Definition pattern := list item.

(** Short-circuit conjunction and disjunction: the right operand is only
    evaluated when the left one does not decide, as the matcher backtracks. *)
Notation "a 'and_then' b" := (if a then b else false)
  (at level 40, left associativity, only parsing).
Notation "a 'or_else' b" := (if a then true else b)
  (at level 50, left associativity, only parsing).

(** Case folding under IGNORECASE, for the ASCII characters patterns are
    written in: a letter matches both its cases, and [i], [s] and [k] also
    match the four code points that CPython folds onto them (dotted capital I
    and dotless i, long s, the Kelvin sign). *)
Definition fold (c : N) : N :=
  if ((c =? 304) || (c =? 305))%N then 105%N
  else if (c =? 383)%N then 115%N
  else if (c =? 8490)%N then 107%N
  else Py.ascii_lower c.

Definition same_char (p c : N) : bool := (fold c =? fold p)%N.

Definition atom_matches (a : atom) (c : N) : bool :=
  match a with
  | Lit p => same_char p c
  | Space => Py.isspace c
  | Dot => negb (c =? NL)%N
  | OneOf cs => existsb (fun p => same_char p c) cs
  | NoneOf cs => negb (existsb (fun p => same_char p c) cs)
  end.

(** A bound that is still open after one more repetition. *)
Definition room (hi : option nat) : option (option nat) :=
  match hi with
  | None => Some None
  | Some 0%nat => None
  | Some (S h) => Some (Some h)
  end.

(** [a{lo,hi}] followed by the continuation [k]: longest repetition first. *)
Fixpoint repeat_then (a : atom) (k : pystr -> bool) (lo : nat) (hi : option nat)
    (s : pystr) {struct s} : bool :=
  match lo with
  | S lo' =>
      match s, room hi with
      | c :: s', Some hi' => atom_matches a c and_then repeat_then a k lo' hi' s'
      | _, _ => false
      end
  | O =>
      match s, room hi with
      | c :: s', Some hi' =>
          (atom_matches a c and_then repeat_then a k O hi' s') or_else k s
      | _, _ => k s
      end
  end.

(** The atoms of a lookahead, matched at the front of [s]. *)
Fixpoint atoms_here (p : list atom) (s : pystr) : bool :=
  match p, s with
  | [], _ => true
  | a :: p', c :: s' => atom_matches a c and_then atoms_here p' s'
  | _ :: _, [] => false
  end.

(** Does the pattern match at the front of [s]? *)
Fixpoint match_here (p : pattern) (s : pystr) {struct p} : bool :=
  match p with
  | [] => true
  | One a :: p' =>
      match s with
      | c :: s' => atom_matches a c and_then match_here p' s'
      | [] => false
      end
  | Rep a lo hi :: p' => repeat_then a (match_here p') lo hi s
  | NotAhead q :: p' => negb (atoms_here q s) and_then match_here p' s
  end.

(** [re.search]: a match starting at some position of [s], the end
    included. *)
Fixpoint search (p : pattern) (s : pystr) : bool :=
  match_here p s or_else
  match s with
  | [] => false
  | _ :: s' => search p s'
  end.

(** Pattern syntax. *)
Definition text (s : string) : pattern := map (fun c => One (Lit c)) (py s).
Definition star (a : atom) : item := Rep a 0 None.
Definition plus (a : atom) : item := Rep a 1 None.
Definition opt (a : atom) : item := Rep a 0 (Some 1%nat).
Definition at_least (n : nat) (a : atom) : item := Rep a n None.
Definition not_ahead (s : string) : item := NotAhead (map Lit (py s)).

End re.

(** ** plugins/vuln_scanner.py *)

(** Severity tiers: the three strings [get_severity] returns. *)
Inductive Severity := HIGH | MEDIUM | LOW.

Definition Severity_str (s : Severity) : pystr :=
  match s with
  | HIGH => py "HIGH"
  | MEDIUM => py "MEDIUM"
  | LOW => py "LOW"
  end.

Global Instance Severity_eq_dec : EqDecision Severity.
Proof. solve_decision. Defined.

(** One entry of the findings list (a dict with these six keys). *)
Record Finding := {
  file : pystr;
  line : nat;
  type : pystr;
  description : pystr;
  code : pystr;
  severity : Severity;
}.

(** ** Exceptions *)

(** Exception classes, as far as the [except] clauses of the program tell
    them apart: [ImportError] with its subclass, every other class derived
    from [Exception], and the classes that derive from [BaseException]
    directly. *)
Inductive exc_class :=
  | ModuleNotFoundError
  | ImportError
  | OtherException        (* TypeError, OSError, SyntaxError, ... *)
  | SystemExit
  | KeyboardInterrupt
  | GeneratorExit.

Definition is_ImportError (c : exc_class) : bool :=
  match c with
  | ModuleNotFoundError | ImportError => true
  | _ => false
  end.

Definition is_Exception (c : exc_class) : bool :=
  match c with
  | SystemExit | KeyboardInterrupt | GeneratorExit => false
  | _ => true
  end.

(** A raised exception: its class and [str(e)]. *)
Record exception := {
  class : exc_class;
  message : pystr;
}.

(** What a call does: return a value or raise. *)
Inductive outcome (A : Type) :=
  | Return (v : A)
  | Raise (e : exception).
Arguments Return {A} v.
Arguments Raise {A} e.

Definition bind {A B} (m : outcome A) (k : A -> outcome B) : outcome B :=
  match m with
  | Return v => k v
  | Raise e => Raise e
  end.

(** [try: body / except <classes> as e: handler(e)] *)
Definition try_except {A} (body : outcome A) (catches : exc_class -> bool)
    (handler : exception -> outcome A) : outcome A :=
  match body with
  | Return v => Return v
  | Raise e => if catches (class e) then handler e else Raise e
  end.

(** ** The file system and the console

    A snapshot of what the scan can see.  A resolved absolute path is the list
    of its components ([pathlib]'s parts below the root); a file carries the
    text [open(..., errors='ignore').read()] returns, or nothing when opening
    or reading it fails; a directory lists its entries in the order
    [os.scandir] reports them.  Symbolic links are not part of the
    snapshot. *)

Definition Path := list pystr.

#[warnings="-register-all"]
Inductive node :=
  | File (contents : option pystr)
  | Dir (entries : list (pystr * node)).

(** What the calls on a path answer.  [Path(p).resolve()] returns the
    resolved path or raises ([ValueError] on a NUL character, [OSError] when
    the working directory is gone).  [path.exists()] and [path.is_file()]
    answer [False] where the lookup finds nothing and raise its other errors
    (a name longer than the file system allows, a directory that may not be
    searched); [is_file] is [True] on a regular file only.  [node_at] is what
    [open] and [os.walk] find at a path: where there is nothing, a file that
    cannot be opened; where there is a device, a pipe or a socket, a file,
    which [os.walk] cannot list. *)
Record filesystem := {
  resolve : pystr -> outcome Path;     (* Path(p).resolve() *)
  exists_ : Path -> outcome bool;      (* path.exists() *)
  is_file : Path -> outcome bool;      (* path.is_file() *)
  node_at : Path -> node;              (* what is opened or walked at a path *)
}.

(** [sys.stdout], as far as [print] depends on it: given the texts the call
    has printed so far and the next one, the stream takes the text or [print]
    raises ([UnicodeEncodeError] where the encoding of the stream has no form
    for the text, [OSError] or [ValueError] on a broken or closed stream). *)
Definition console : Type := list pystr -> pystr -> option exception.

(** What a call has done so far: the texts of its [print] calls that
    returned, in order, and the files it opened. *)
Record world := {
  printed : list pystr;
  files_opened : list Path;
}.

Definition nothing : world := {| printed := []; files_opened := [] |}.

(** A call inside a world: its outcome and the world it leaves. *)
Definition io (A : Type) : Type := world -> outcome A * world.

Definition io_ret {A} (v : A) : io A := fun w => (Return v, w).

Definition io_bind {A B} (m : io A) (k : A -> io B) : io B :=
  fun w =>
    match m w with
    | (Return v, w') => k v w'
    | (Raise e, w') => (Raise e, w')
    end.

Notation "'let*' x := m 'in' k" := (io_bind m (fun x => k))
  (at level 10, x name, m at level 100, k at level 200, only parsing).

(** A call that touches neither the console nor a file. *)
Definition lift {A} (o : outcome A) : io A := fun w => (o, w).

(** [print(text)] *)
Definition print (stdout : console) (text : pystr) : io unit :=
  fun w =>
    match stdout (printed w) text with
    | None =>
        (Return tt, {| printed := printed w ++ [text];
                       files_opened := files_opened w |})
    | Some e => (Raise e, w)
    end.

(** [try: body / except <classes> as e: handler(e)] *)
Definition io_try {A} (body : io A) (catches : exc_class -> bool)
    (handler : exception -> io A) : io A :=
  fun w =>
    match body w with
    | (Return v, w') => (Return v, w')
    | (Raise e, w') =>
        if catches (class e) then handler e w' else (Raise e, w')
    end.

Module vuln_scanner.

Import re.

Definition ch (c : ascii) : N := N_of_ascii c.
Definition quotes : atom := OneOf [QUOTE; DQUOTE].
Definition no_quote : atom := NoneOf [QUOTE; DQUOTE].
Definition ws : pattern := [star Space].

(** The catalog, in declaration order.  Each rule is its pattern and its
    description; the patterns are the source's, item by item ([ws] is \s*,
    [quotes] the class of the two quote characters, [no_quote] its
    complement). *)
Definition VULN_PATTERNS : list (pystr * list (pattern * pystr)) := [
  (py "SQL Injection", [
    (* execute \s* \( \s* [quotes] .* % .* [quotes] \s* % *)
    (text "execute" ++ ws ++ text "(" ++ ws ++ [One quotes; star Dot]
       ++ text "%" ++ [star Dot; One quotes] ++ ws ++ text "%",
     py "String formatting in SQL query");
    (* execute \s* \( \s* .* \+ .* \) *)
    (text "execute" ++ ws ++ text "(" ++ ws ++ [star Dot] ++ text "+"
       ++ [star Dot] ++ text ")",
     py "String concatenation in SQL query");
    (* \.format \s* \( .* SELECT *)
    (text ".format" ++ ws ++ text "(" ++ [star Dot] ++ text "SELECT",
     py "String formatting with SELECT")
  ]);
  (py "XSS", [
    (* innerHTML \s* = \s* [^;]+ (?!sanitize) *)
    (text "innerHTML" ++ ws ++ text "=" ++ ws
       ++ [plus (NoneOf [ch ";"]); not_ahead "sanitize"],
     py "Potential XSS via innerHTML");
    (* document\.write \s* \( *)
    (text "document.write" ++ ws ++ text "(",
     py "Unsafe document.write usage");
    (* eval \s* \( *)
    (text "eval" ++ ws ++ text "(",
     py "Dangerous eval() usage")
  ]);
  (py "Command Injection", [
    (* os\.system \s* \( .* \+ *)
    (text "os.system" ++ ws ++ text "(" ++ [star Dot] ++ text "+",
     py "Command injection via os.system");
    (* subprocess\. .* shell \s* = \s* True *)
    (text "subprocess." ++ [star Dot] ++ text "shell" ++ ws ++ text "=" ++ ws
       ++ text "True",
     py "Shell injection risk");
    (* exec \s* \( .* input *)
    (text "exec" ++ ws ++ text "(" ++ [star Dot] ++ text "input",
     py "Executing user input")
  ]);
  (py "Path Traversal", [
    (* open \s* \( .* input .* \) *)
    (text "open" ++ ws ++ text "(" ++ [star Dot] ++ text "input" ++ [star Dot]
       ++ text ")",
     py "User input in file path");
    (* os\.path\.join \s* \( .* request\. *)
    (text "os.path.join" ++ ws ++ text "(" ++ [star Dot] ++ text "request.",
     py "Request data in path")
  ]);
  (py "Hardcoded Secrets", [
    (* password \s* = \s* [quotes] [^quotes]+ [quotes] (?!\{) *)
    (text "password" ++ ws ++ text "=" ++ ws
       ++ [One quotes; plus no_quote; One quotes; not_ahead "{"],
     py "Hardcoded password");
    (* api [_-]? key \s* = \s* [quotes] [^quotes]+ [quotes] (?!\{) *)
    (text "api" ++ [opt (OneOf [ch "_"; ch "-"])] ++ text "key" ++ ws
       ++ text "=" ++ ws
       ++ [One quotes; plus no_quote; One quotes; not_ahead "{"],
     py "Hardcoded API key");
    (* secret \s* = \s* [quotes] [^quotes]+ [quotes] (?!\{) *)
    (text "secret" ++ ws ++ text "=" ++ ws
       ++ [One quotes; plus no_quote; One quotes; not_ahead "{"],
     py "Hardcoded secret");
    (* token \s* = \s* [quotes] [^quotes]{20,} [quotes] (?!\{) *)
    (text "token" ++ ws ++ text "=" ++ ws
       ++ [One quotes; at_least 20 no_quote; One quotes; not_ahead "{"],
     py "Hardcoded token")
  ])
].

Definition SCANNABLE_EXTENSIONS : gset pystr :=
  {[ py ".py"; py ".js"; py ".java"; py ".php"; py ".rb"; py ".go";
     py ".c"; py ".cpp"; py ".h"; py ".cs"; py ".ts"; py ".jsx"; py ".tsx" ]}.

(** [get_severity(vuln_type)] *)
Definition high_severity : gset pystr :=
  {[ py "SQL Injection"; py "Command Injection"; py "XSS" ]}.
Definition medium_severity : gset pystr := {[ py "Path Traversal" ]}.

Definition get_severity (vuln_type : pystr) : Severity :=
  if bool_decide (vuln_type ∈ high_severity) then HIGH
  else if bool_decide (vuln_type ∈ medium_severity) then MEDIUM
  else LOW.

(** [str(path)] of a resolved path. *)
Definition Path_str (p : Path) : pystr :=
  match p with
  | [] => py "/"
  | _ => flat_map (fun part => ch "/" :: part) p
  end.

(** [path.name] and [path.suffix] (the final component, and what follows its
    last dot when the dot is neither first nor last). *)
Definition Path_name (p : Path) : pystr := List.last p [].

Definition Path_suffix (p : Path) : pystr :=
  let name := Path_name p in
  let i := Py.rfind (ch ".") name in
  if (0 <? i) && (i <? Z.of_nat (length name) - 1) then drop (Z.to_nat i) name
  else [].

(** What [open(file_path).read()] gives inside [scan_file]: the text, or an
    exception (unreadable, or not a regular file). *)
Definition read_text (f : node) : option pystr :=
  match f with
  | File contents => contents
  | Dir _ => None
  end.

(** The three nested loops of [scan_file] over the lines of a text. *)
Definition scan_lines (file_path : Path) (lines : list pystr) : list Finding :=
  flat_map (fun '(vuln_type, patterns) =>
    flat_map (fun '(pattern, description) =>
      flat_map (fun '(line_num, line) =>
        if search pattern line then
          [ {| file := Path_str file_path;
               line := line_num;
               type := vuln_type;
               description := description;
               code := Py.strip line;
               severity := get_severity vuln_type |} ]
        else [])
        (Py.enumerate lines 1))
      patterns)
    VULN_PATTERNS.

(** [scan_file(file_path)], where [f] is what the file system holds at
    [file_path]: a failure to open or read is swallowed and nothing is
    found. *)
Definition scan_file (file_path : Path) (f : node) : list Finding :=
  match read_text f with
  | Some content => scan_lines file_path (Py.split NL content)
  | None => []
  end.

(** [os.walk(top)], top-down, as the list of triples the generator yields.
    The caller may prune the walk by rewriting the yielded [dirs] in place
    before asking for the next triple; [keep] is the filter it applies each
    time, so only the sub-directories it keeps are entered, in listing order.
    A triple carries the directory, the names of its sub-directories as
    listed, and its other entries (each name with what is stored under
    it). *)
Definition is_dir (n : node) : bool :=
  match n with
  | Dir _ => true
  | File _ => false
  end.

Definition triple : Type := Path * list pystr * list (pystr * node).

Fixpoint os_walk (keep : pystr -> bool) (top : Path) (n : node) : list triple :=
  match n with
  | File _ => []
  | Dir entries =>
      (top,
       map fst (List.filter (fun e => is_dir (snd e)) entries),
       List.filter (fun e => negb (is_dir (snd e))) entries)
      :: (fix walk_dirs (es : list (pystr * node)) : list triple :=
            match es with
            | [] => []
            | (name, child) :: es' =>
                (if is_dir child && keep name
                 then os_walk keep (top ++ [name]) child
                 else [])
                ++ walk_dirs es'
            end) entries
  end.

(** The directory names [scan_directory] removes from [dirs]. *)
Definition SKIP_DIRS : gset pystr :=
  {[ py "node_modules"; py ".git"; py "__pycache__"; py "venv"; py "env";
     py ".venv"; py "dist"; py "build"; py "target" ]}.

Definition keep_dir (d : pystr) : bool := negb (bool_decide (d ∈ SKIP_DIRS)).

(** The extension test on [Path(root) / file]. *)
Definition scannable (file_path : Path) : bool :=
  bool_decide (Py.lower (Path_suffix file_path) ∈ SCANNABLE_EXTENSIONS).

(** The variables of [scan_directory], and the files [scan_file] has opened
    so far, in order. *)
Record scan_state := {
  all_findings : list Finding;
  files_scanned : Z;
  opened : list Path;
}.

(** The body of the inner loop after the cap test, for one entry of
    [files]. *)
Definition scan_entry (root : Path) (entry : pystr * node) (st : scan_state)
    : scan_state :=
  let file_path := root ++ [fst entry] in
  if scannable file_path then
    {| all_findings := all_findings st ++ scan_file file_path (snd entry);
       files_scanned := files_scanned st + 1;
       opened := opened st ++ [file_path] |}
  else st.

(** [for file in files: ...], leaving at the [break]. *)
Fixpoint scan_files (max_files : Z) (root : Path) (files : list (pystr * node))
    (st : scan_state) : scan_state :=
  match files with
  | [] => st
  | entry :: rest =>
      if files_scanned st >=? max_files then st
      else scan_files max_files root rest (scan_entry root entry st)
  end.

(** [for root, dirs, files in os.walk(path): ...], leaving at the [break]. *)
Fixpoint walk_loop (max_files : Z) (walk : list triple) (st : scan_state)
    : scan_state :=
  match walk with
  | [] => st
  | (root, _, files) :: rest =>
      let st' := scan_files max_files root files st in
      if files_scanned st' >=? max_files then st'
      else walk_loop max_files rest st'
  end.

(** [scan_directory(path, max_files)] on the directory [tree] found at
    [path]; the function returns the pair of [all_findings] and
    [files_scanned] of the final state. *)
Definition scan_directory (path : Path) (tree : node) (max_files : Z)
    : scan_state :=
  walk_loop max_files (os_walk keep_dir path tree)
    {| all_findings := []; files_scanned := 0; opened := [] |}.

(** [format_results(findings, files_scanned)] *)
Definition CHECK_MARK : N := 10003.
Definition BULLET : N := 8226.

Definition format_finding (entry : nat * Finding) : pystr :=
  let '(i, finding) := entry in
  [NL] ++ Py.str_of_int (Z.of_nat i) ++ py ". " ++ type finding ++ [NL]
  ++ py "   File: " ++ file finding ++ py ":"
  ++ Py.str_of_int (Z.of_nat (line finding)) ++ [NL]
  ++ py "   Issue: " ++ description finding ++ [NL]
  ++ py "   Code: " ++ take 100 (code finding) ++ [NL].

Definition format_section (findings : list Finding) (sev : Severity) : pystr :=
  let items := List.filter (fun f => bool_decide (severity f = sev)) findings in
  match items with
  | [] => []
  | _ =>
      [NL] ++ Severity_str sev ++ py " Severity Issues ("
      ++ Py.str_of_int (Z.of_nat (length items)) ++ py "):  " ++ [NL]
      ++ Py.times (ch "-") 70 ++ [NL]
      ++ flat_map format_finding (Py.enumerate items 1)
  end.

Definition format_results (findings : list Finding) (files_scanned : Z) : pystr :=
  match findings with
  | [] =>
      [NL] ++ py "[" ++ [CHECK_MARK] ++ py "] No vulnerabilities found ("
      ++ Py.str_of_int files_scanned ++ py " files scanned)" ++ [NL]
  | _ =>
      let count sev :=
        Py.str_of_int (Z.of_nat (length
          (List.filter (fun f => bool_decide (severity f = sev)) findings))) in
      let bar := Py.times (ch "=") 70 in
      [NL] ++ bar ++ [NL]
      ++ py "Vulnerability Scan Results" ++ [NL]
      ++ bar ++ [NL]
      ++ py "Files Scanned: " ++ Py.str_of_int files_scanned ++ [NL]
      ++ py "Issues Found: " ++ Py.str_of_int (Z.of_nat (length findings)) ++ [NL]
      ++ py "  " ++ [BULLET] ++ py " HIGH:   " ++ count HIGH ++ [NL]
      ++ py "  " ++ [BULLET] ++ py " MEDIUM: " ++ count MEDIUM ++ [NL]
      ++ py "  " ++ [BULLET] ++ py " LOW:    " ++ count LOW ++ [NL]
      ++ bar ++ [NL]
      ++ flat_map (format_section findings) [HIGH; MEDIUM; LOW]
      ++ [NL] ++ bar ++ [NL]
  end.

(** The [args] of the plugin: a mapping that may hold a string under "path"
    and an integer under "max_files". *)
Record Args := {
  arg_path : option pystr;
  arg_max_files : option Z;
}.

Definition no_args : Args := {| arg_path := None; arg_max_files := None |}.

(** The calls [scan_file(path)] and [scan_directory(path, max_files)] of the
    entry point, with the files they open. *)
Definition call_scan_file (fs : filesystem) (path : Path) : io (list Finding) :=
  fun w =>
    (Return (scan_file path (node_at fs path)),
     {| printed := printed w; files_opened := files_opened w ++ [path] |}).

Definition call_scan_directory (fs : filesystem) (path : Path) (max_files : Z)
    : io (list Finding * Z) :=
  fun w =>
    let st := scan_directory path (node_at fs path) max_files in
    (Return (all_findings st, files_scanned st),
     {| printed := printed w; files_opened := files_opened w ++ opened st |}).

(** [run_plugin(args)] *)
Definition run_plugin (fs : filesystem) (stdout : console) (args : option Args)
    : io pystr :=
  let args := default no_args args in
  let scan_path := default (py ".") (arg_path args) in
  let max_files := default 1000 (arg_max_files args) in
  let* path := lift (resolve fs scan_path) in
  let* found := lift (exists_ fs path) in
  if negb found then io_ret (py "[!] Path not found: " ++ scan_path)
  else
    let* _ := print stdout (py "[*] Scanning: " ++ Path_str path) in
    let* single := lift (is_file fs path) in
    let* scanned :=
      if single then
        let* findings := call_scan_file fs path in
        io_ret (findings, 1)
      else call_scan_directory fs path max_files in
    io_ret (format_results (fst scanned) (snd scanned)).

End vuln_scanner.

(** ** core/plugin_manager.py *)

(** What a plugin may return: a string, or any other object. *)
Inductive value :=
  | Str (s : pystr)
  | Object (id : N).

(** A loaded module, as far as the dispatcher looks at it: its attributes
    [run_plugin] and [run], each a function of [args] when present. *)
Record module (A : Type) := {
  attr_run_plugin : option (A -> outcome value);
  attr_run : option (A -> outcome value);
}.
Arguments attr_run_plugin {A} m.
Arguments attr_run {A} m.

(** [importlib.import_module] in the running interpreter. *)
Definition importer (A : Type) : Type := pystr -> outcome (module A).

Module plugin_manager.

Definition PLUGIN_REGISTRY : gmap pystr (pystr * pystr) :=
  {[ py "vuln_scan" := (py "plugins", py "vuln_scanner") ]}.

Definition ALIASES : gmap pystr pystr :=
  {[ py "scan" := py "vuln_scan";
     py "vulnerability_scan" := py "vuln_scan" ]}.

Section dispatch.

Context {A : Type} (import_module : importer A).

(** [_load_plugin_module(category, module_name)] *)
Definition _load_plugin_module (category module_name : pystr)
    : outcome (module A) :=
  try_except
    (import_module (category ++ py "." ++ module_name))
    is_ImportError
    (fun _ =>
       try_except
         (import_module (py "plugins." ++ module_name))
         is_ImportError
         (fun e =>
            Raise {| class := ModuleNotFoundError;
                     message := py "Plugin not found: " ++ category ++ py "."
                                ++ module_name ++ [NL] ++ py "Error: "
                                ++ message e |})).

(** [run_plugin(task, args)] *)
Definition run_plugin (task : pystr) (args : A) : outcome value :=
  let resolved_task := default task (ALIASES !! task) in
  match PLUGIN_REGISTRY !! resolved_task with
  | None => Return (Str (py "[!] Unknown plugin: " ++ task))
  | Some (category, module_name) =>
      try_except
        (bind (_load_plugin_module category module_name) (fun plugin_module =>
           match attr_run_plugin plugin_module, attr_run plugin_module with
           | Some run_plugin, _ => run_plugin args
           | None, Some run => run args
           | None, None =>
               Return (Str (py "[!] Plugin " ++ module_name
                            ++ py " has no run() or run_plugin() function"))
           end))
        is_Exception
        (fun e => Return (Str (py "[!] Plugin execution failed: " ++ message e)))
  end.

End dispatch.

(** The modules the repository ships: [plugins.vuln_scanner], whose
    [run_plugin] is the scanner's entry point on the file system [fs] and the
    console [stdout]; it returns the string the entry point returns and
    raises what it raises. *)
Definition shipped (fs : filesystem) (stdout : console)
    : importer (option vuln_scanner.Args) :=
  fun name =>
    if bool_decide (name = py "plugins.vuln_scanner") then
      Return {| attr_run_plugin :=
                  Some (fun args =>
                          bind (fst (vuln_scanner.run_plugin fs stdout args nothing))
                               (fun report => Return (Str report)));
                attr_run := None |}
    else
      Raise {| class := ModuleNotFoundError;
               message := py "No module named '" ++ name ++ py "'" |}.

End plugin_manager.

(** ** Sample inputs *)

Module samples.

Import vuln_scanner.

(** The line [query = "SELECT * FROM t WHERE id=" + user_id]. *)
Definition query_line : pystr :=
  py "query = " ++ [DQUOTE] ++ py "SELECT * FROM t WHERE id=" ++ [DQUOTE]
  ++ py " + user_id".

(** The line [cursor.execute("SELECT * FROM t WHERE id=" + user_id)]. *)
Definition execute_line : pystr :=
  py "cursor.execute(" ++ [DQUOTE] ++ py "SELECT * FROM t WHERE id=" ++ [DQUOTE]
  ++ py " + user_id)".

(** The line [execute("a%s" % x + y)], which two SQL rules match. *)
Definition format_concat_line : pystr :=
  py "execute(" ++ [DQUOTE] ++ py "a%s" ++ [DQUOTE] ++ py " % x + y)".

Definition eval_file : node := File (Some (py "eval(x)")).

(** A project with a dependency cache next to its sources. *)
Definition project : node :=
  Dir [ (py "a.py", eval_file);
        (py "node_modules", Dir [ (py "b.py", eval_file); (py "c.py", eval_file) ]);
        (py "src", Dir [ (py "d.js", eval_file); (py "notes.txt", eval_file) ]) ].

(** A tree whose only source files sit in a dependency cache. *)
Definition cache_only : node :=
  Dir [ (py "node_modules", Dir [ (py "a.py", eval_file); (py "b.py", eval_file) ]) ].

(** A build directory given as the scan root itself. *)
Definition build_root : Path := [py "proj"; py "build"].
Definition build_tree : node := Dir [ (py "a.py", eval_file) ].

(** A Linux file system without links that holds the tree [root] at [/],
    seen from the working directory [cwd].  A name takes at most [NAME_MAX]
    bytes and a path fewer than [PATH_MAX]; looking up a longer one fails
    with ENAMETOOLONG, which is not one of the errors [exists] and [is_file]
    read as an absent file. *)
Definition NAME_MAX : nat := 255.
Definition PATH_MAX : nat := 4096.

Definition utf8_length (name : pystr) : nat :=
  list_sum (map (fun c : N =>
                   if (c <? 128)%N then 1 else if (c <? 2048)%N then 2
                   else if (c <? 65536)%N then 3 else 4)%nat name).

Inductive lookup_result :=
  | ENOENT
  | ENOTDIR
  | ENAMETOOLONG
  | Found (n : node).

Fixpoint entry_named (name : pystr) (entries : list (pystr * node))
    : option node :=
  match entries with
  | [] => None
  | (name', child) :: rest =>
      if bool_decide (name' = name) then Some child else entry_named name rest
  end.

Fixpoint walk_to (n : node) (path : Path) : lookup_result :=
  match path with
  | [] => Found n
  | name :: rest =>
      match n with
      | File _ => ENOTDIR
      | Dir entries =>
          if (NAME_MAX <? utf8_length name)%nat then ENAMETOOLONG
          else match entry_named name entries with
               | None => ENOENT
               | Some child => walk_to child rest
               end
      end
  end.

Definition stat (root : node) (path : Path) : lookup_result :=
  if (PATH_MAX <=? utf8_length (Path_str path))%nat then ENAMETOOLONG
  else walk_to root path.

(** The components of a path string below [base]: empty components and [.]
    are dropped, and [..] steps back. *)
Fixpoint below (base : Path) (components : list pystr) : Path :=
  match components with
  | [] => base
  | c :: rest =>
      if bool_decide (c = []) || bool_decide (c = py ".") then below base rest
      else if bool_decide (c = py "..") then below (removelast base) rest
      else below (base ++ [c]) rest
  end.

Definition name_too_long (path : Path) : exception :=
  {| class := OtherException;
     message := py "[Errno 36] File name too long: '" ++ Path_str path
                ++ py "'" |}.

Definition posix (cwd : Path) (root : node) : filesystem :=
  {| resolve := fun p =>
       if bool_decide (0%N ∈ p) then
         Raise {| class := OtherException; message := py "embedded null byte" |}
       else
         Return (below (match p with
                        | 47%N :: _ => []
                        | _ => cwd
                        end) (Py.split 47 p));
     exists_ := fun path =>
       match stat root path with
       | Found _ => Return true
       | ENAMETOOLONG => Raise (name_too_long path)
       | _ => Return false
       end;
     is_file := fun path =>
       match stat root path with
       | Found (File _) => Return true
       | ENAMETOOLONG => Raise (name_too_long path)
       | _ => Return false
       end;
     node_at := fun path =>
       match stat root path with
       | Found n => n
       | _ => File None
       end |}.

(** A disk with the sample project, a file of notes and an empty [/tmp]. *)
Definition disk : node :=
  Dir [ (py "proj", project);
        (py "notes.txt", eval_file);
        (py "tmp", Dir []) ].

(** The same file system with a device at the path [device]: it exists, it
    is not a regular file, reading it gives the empty text and it cannot be
    listed. *)
Definition with_device (fs : filesystem) (device : Path) : filesystem :=
  {| resolve := resolve fs;
     exists_ := fun path =>
       if bool_decide (path = device) then Return true else exists_ fs path;
     is_file := fun path =>
       if bool_decide (path = device) then Return false else is_file fs path;
     node_at := fun path =>
       if bool_decide (path = device) then File (Some [])
       else node_at fs path |}.

(** A name of 256 letters in [/tmp]. *)
Definition long_path : pystr := py "/tmp/" ++ Py.times (ch "a") 256.

(** A console that takes every text, and one whose encoding is ASCII, on
    which printing any other character raises [e]. *)
Definition utf8_console : console := fun _ _ => None.

Definition ascii_console (e : exception) : console :=
  fun _ text => if forallb (fun c => (c <? 128)%N) text then None else Some e.

(** What printing the report of a clean file raises on an ASCII console. *)
Definition check_mark_error : exception :=
  {| class := OtherException;
     message := py "'ascii' codec can't encode character '\u2713' in position 3: ordinal not in range(128)" |}.

(** A plugin whose entry point leaves the interpreter. *)
Definition exiting : importer unit :=
  fun _ =>
    Return {| attr_run_plugin :=
                Some (fun _ => Raise {| class := SystemExit; message := py "1" |});
              attr_run := None |}.

(** A plugin whose entry point raises an [OSError]. *)
Definition crashing : importer unit :=
  fun _ =>
    Return {| attr_run_plugin :=
                Some (fun _ => Raise {| class := OtherException;
                                        message := py "disk full" |});
              attr_run := None |}.

(** An installation in which importing the plugin raises a [SyntaxError]. *)
Definition broken : importer unit :=
  fun _ => Raise {| class := OtherException; message := py "invalid syntax" |}.

(** No module can be imported. *)
Definition nothing_installed : importer unit :=
  fun name =>
    Raise {| class := ModuleNotFoundError;
             message := py "No module named '" ++ name ++ py "'" |}.

(** A module with neither entry point. *)
Definition hollow : importer unit :=
  fun _ => Return {| attr_run_plugin := None; attr_run := None |}.

End samples.

(** ** Notions the statements use *)

Module notions.

Import vuln_scanner.

(** The position of the first occurrence of [x] in [l] (its length when
    there is none). *)
Fixpoint index_of {A} `{EqDecision A} (x : A) (l : list A) : nat :=
  match l with
  | [] => O
  | y :: l' => if decide (x = y) then O else S (index_of x l')
  end.

(** The rules declared under a category. *)
Fixpoint rules_for (vuln_type : pystr)
    (catalog : list (pystr * list (re.pattern * pystr)))
    : list (re.pattern * pystr) :=
  match catalog with
  | [] => []
  | (t, patterns) :: rest =>
      if decide (vuln_type = t) then patterns else rules_for vuln_type rest
  end.

(** Where a finding's category stands in the catalog, and where its rule
    (known by its description) stands within the category. *)
Definition category_rank (f : Finding) : nat :=
  index_of (type f) (map fst VULN_PATTERNS).

Definition rule_rank (f : Finding) : nat :=
  index_of (description f) (map snd (rules_for (type f) VULN_PATTERNS)).

(** The order of a report: category first, then rule, then line. *)
Definition report_order (f g : Finding) : Prop :=
  (category_rank f < category_rank g)%nat
  \/ category_rank f = category_rank g
     /\ ((rule_rank f < rule_rank g)%nat
         \/ rule_rank f = rule_rank g /\ (line f < line g)%nat).

(** The catalog as one list of rules: category, pattern, description. *)
Definition rule : Type := pystr * re.pattern * pystr.

Definition rules : list rule :=
  flat_map (fun '(vuln_type, patterns) =>
              map (fun '(pattern, description) =>
                     (vuln_type, pattern, description)) patterns)
    VULN_PATTERNS.

(** A rule is known by its category and its description. *)
Definition rule_key (r : rule) : pystr * pystr :=
  let '(vuln_type, _, description) := r in (vuln_type, description).

(** The rules a line triggers. *)
Definition triggered (text : pystr) : list rule :=
  List.filter (fun '(_, pattern, _) => re.search pattern text) rules.

(** Is the finding one of the rule with this category and description? *)
Definition reported_by (vuln_type rule_description : pystr) (f : Finding)
    : bool :=
  bool_decide (type f = vuln_type /\ description f = rule_description).

(** The finding [scan_file] appends when a rule matches a line. *)
Definition found (file_path : Path) (vuln_type rule_description : pystr)
    (line_num : nat) (text : pystr) : Finding :=
  {| file := Path_str file_path;
     line := line_num;
     type := vuln_type;
     description := rule_description;
     code := Py.strip text;
     severity := get_severity vuln_type |}.

(** What a rule reports on the only line of a one-line text. *)
Definition on_line (file_path : Path) (text : pystr) (r : rule)
    : list Finding :=
  let '(vuln_type, pattern, rule_description) := r in
  if re.search pattern text
  then [found file_path vuln_type rule_description 1 text]
  else [].

(** The entries of one directory that pass the extension test, as paths. *)
Definition scannable_in (root : Path) (files : list (pystr * node))
    : list (Path * node) :=
  List.filter (fun e => scannable (fst e))
    (map (fun e => (root ++ [fst e], snd e)) files).

(** The files with a scannable extension that a walk pruned by [keep] comes
    across, in the order it does, each with what is stored there. *)
Definition files_in (keep : pystr -> bool) (path : Path) (tree : node)
    : list (Path * node) :=
  flat_map (fun '(root, _, files) => scannable_in root files)
    (os_walk keep path tree).

(** Every scannable file of the tree, pruned or not. *)
Definition all_files : Path -> node -> list (Path * node) :=
  files_in (fun _ => true).

(** The scannable files the pruned walk reaches. *)
Definition reachable_files : Path -> node -> list (Path * node) :=
  files_in keep_dir.

(** The state of [scan_directory] after scanning the files [es] on top of
    [st]. *)
Definition advance (st : scan_state) (es : list (Path * node)) : scan_state :=
  {| all_findings :=
       all_findings st ++ flat_map (fun e => scan_file (fst e) (snd e)) es;
     files_scanned := files_scanned st + Z.of_nat (length es);
     opened := opened st ++ map fst es |}.

End notions.

(** ** core/config.py *)

Module config.

Section store.

(** The values a configuration holds are Python objects of any kind. *)
Context {V : Type}.

(** [get_config(key, default)] on the current [CHARLOTTE_CONFIG]. *)
Definition get_config (CHARLOTTE_CONFIG : gmap pystr V) (key : pystr)
    (default_value : V) : V :=
  default default_value (CHARLOTTE_CONFIG !! key).

(** [set_config(key, value)]: the dictionary after the assignment. *)
Definition set_config (CHARLOTTE_CONFIG : gmap pystr V) (key : pystr)
    (value : V) : gmap pystr V :=
  <[key := value]> CHARLOTTE_CONFIG.

End store.

End config.

(** ** core/main.py *)

Module main.

Section menu.

(** [bool(o)] and [str(o)] of a plugin result that is not a string: each
    runs a method of the object, which returns or raises. *)
Context (object_truth : N -> outcome bool) (object_str : N -> outcome pystr).

(** [if result:] *)
Definition truth (v : value) : outcome bool :=
  match v with
  | Str s => Return (negb (bool_decide (s = [])))
  | Object o => object_truth o
  end.

(** The text of [result] in an f-string. *)
Definition to_str (v : value) : outcome pystr :=
  match v with
  | Str s => Return s
  | Object o => object_str o
  end.

(** [run_vulnerability_scan()], where [prompt] is what the question to the
    user returns ([None] or a string) or raises.  The world holds what the
    function itself prints. *)
Definition run_vulnerability_scan (stdout : console)
    (prompt : outcome (option pystr))
    (import_module : importer (option vuln_scanner.Args)) : io unit :=
  let* _ := print stdout ([NL] ++ py "=== Vulnerability Scanner ===") in
  let* answer := lift prompt in
  let path :=
    match answer with
    | Some (c :: s) => c :: s
    | _ => py "."
    end in
  let* _ := print stdout ([NL] ++ py "[*] Scanning: " ++ path) in
  io_try
    (let* result :=
       lift (plugin_manager.run_plugin import_module (py "vuln_scan")
               (Some {| vuln_scanner.arg_path := Some path;
                        vuln_scanner.arg_max_files := None |})) in
     let* shown := lift (truth result) in
     if shown then
       let* text := lift (to_str result) in
       print stdout ([NL] ++ text)
     else io_ret tt)
    is_Exception
    (fun e => print stdout ([NL] ++ py "[!] Scan error: " ++ message e)).

End menu.

End main.

(** ** Further notions *)

Module derived.

Import vuln_scanner notions.

(** What a rule reports on a numbered line. *)
Definition reports (file_path : Path) (r : rule) (entry : nat * pystr)
    : list Finding :=
  let '(vuln_type, pattern, rule_description) := r in
  let '(line_num, text) := entry in
  if re.search pattern text
  then [found file_path vuln_type rule_description line_num text]
  else [].

(** Where a finding is and what it says, without the file and the code. *)
Definition summary (f : Finding) : nat * pystr * pystr * Severity :=
  (line f, type f, description f, severity f).

(** The finding [k] lines further down. *)
Definition shift_lines (k : nat) (f : Finding) : Finding :=
  {| file := file f;
     line := k + line f;
     type := type f;
     description := description f;
     code := code f;
     severity := severity f |}.

(** Two texts that differ only in the case of ASCII letters. *)
Definition same_case (s t : pystr) : Prop :=
  map Py.ascii_lower s = map Py.ascii_lower t.

(** The findings of one severity, in the order they come. *)
Definition of_severity (sev : Severity) (findings : list Finding)
    : list Finding :=
  List.filter (fun f => bool_decide (severity f = sev)) findings.

(** The tree without the directories the scan skips. *)
Fixpoint prune (n : node) : node :=
  match n with
  | File contents => File contents
  | Dir entries =>
      Dir ((fix prune_entries (es : list (pystr * node))
              : list (pystr * node) :=
              match es with
              | [] => []
              | (name, child) :: es' =>
                  if is_dir child && negb (keep_dir name)
                  then prune_entries es'
                  else (name, prune child) :: prune_entries es'
              end) entries)
  end.

(** What the dispatcher makes of the outcome of an entry point. *)
Definition shielded (o : outcome value) : outcome value :=
  match o with
  | Return v => Return v
  | Raise e =>
      if is_Exception (class e)
      then Return (Str (py "[!] Plugin execution failed: " ++ message e))
      else Raise e
  end.

(** The task names the registry and the aliases know. *)
Definition known_task (task : pystr) : Prop :=
  task = py "vuln_scan" \/ task = py "scan" \/ task = py "vulnerability_scan".

(** The path the menu scans for an answer of the prompt, the arguments it
    hands to the dispatcher, and what it prints before the scan. *)
Definition asked_path (answer : option pystr) : pystr :=
  match answer with
  | Some (c :: s) => c :: s
  | _ => py "."
  end.

Definition scan_args (answer : option pystr) : option Args :=
  Some {| arg_path := Some (asked_path answer); arg_max_files := None |}.

Definition scan_banner (answer : option pystr) : list pystr :=
  [ [NL] ++ py "=== Vulnerability Scanner ===";
    [NL] ++ py "[*] Scanning: " ++ asked_path answer ].

(** The world after more texts were printed. *)
Definition and_printed (w : world) (texts : list pystr) : world :=
  {| printed := printed w ++ texts; files_opened := files_opened w |}.

(** The world after more files were opened. *)
Definition and_opened (w : world) (paths : list Path) : world :=
  {| printed := printed w; files_opened := files_opened w ++ paths |}.

(** The line the scanner prints before it scans. *)
Definition progress (path : Path) : pystr :=
  py "[*] Scanning: " ++ Path_str path.

(** What the entry point of a plugin hands to the dispatcher when the
    scanner's entry point returns a report or raises. *)
Definition as_value (o : outcome pystr) : outcome value :=
  bind o (fun report => Return (Str report)).

End derived.

(** * Properties *)

(** ** Lists *)

Section lists.

Context {A B : Type}.

Lemma flat_map_ext_In (f g : A -> list B) (l : list A) :
  (forall x, In x l -> f x = g x) -> flat_map f l = flat_map g l.
Proof.
  induction l as [|x l IH]; simpl; intros H; [reflexivity|].
  rewrite H by (left; reflexivity). f_equal.
  apply IH. intros y Hy. apply H. right. exact Hy.
Qed.

Lemma flat_map_of_map {C} (h : B -> list C) (k : A -> B) (l : list A) :
  flat_map h (map k l) = flat_map (fun a => h (k a)) l.
Proof.
  induction l as [|a l IH]; simpl; [reflexivity|]. rewrite IH. reflexivity.
Qed.

Lemma flat_map_nested {C} (h : B -> list C) (g : A -> list B) (l : list A) :
  flat_map h (flat_map g l) = flat_map (fun a => flat_map h (g a)) l.
Proof.
  induction l as [|a l IH]; simpl; [reflexivity|].
  rewrite flat_map_app, IH. reflexivity.
Qed.

(** A concatenation of sorted blocks is sorted when every element of an
    earlier block is below every element of a later one. *)
Lemma StronglySorted_flat_map (R : B -> B -> Prop) (g : A -> list B)
    (xs : list A) :
  (forall x, In x xs -> StronglySorted R (g x)) ->
  (forall l1 x l2 y l3, xs = l1 ++ x :: l2 ++ y :: l3 ->
     forall a b, In a (g x) -> In b (g y) -> R a b) ->
  StronglySorted R (flat_map g xs).
Proof.
  induction xs as [|x xs IH]; simpl; intros Hs Hlt; [constructor|].
  apply StronglySorted_app_2.
  - intros a b Ha%list_elem_of_In Hb%list_elem_of_In.
    apply in_flat_map in Hb as (y & Hy & Hb).
    apply in_split in Hy as (l2 & l3 & ->).
    apply (Hlt [] x l2 y l3); [reflexivity|assumption..].
  - apply Hs. left; reflexivity.
  - apply IH.
    + intros y Hy. apply Hs. right; exact Hy.
    + intros l1 y l2 z l3 -> a b. apply (Hlt (x :: l1) y l2 z l3). reflexivity.
Qed.

Lemma filter_all (c : B -> bool) (l : list B) :
  (forall b, In b l -> c b = true) -> List.filter c l = l.
Proof.
  induction l as [|b l IH]; simpl; intros H; [reflexivity|].
  rewrite H by (left; reflexivity). f_equal.
  apply IH. intros; apply H; right; assumption.
Qed.

Lemma filter_none (c : B -> bool) (l : list B) :
  (forall b, In b l -> c b = false) -> List.filter c l = [].
Proof.
  induction l as [|b l IH]; simpl; intros H; [reflexivity|].
  rewrite H by (left; reflexivity).
  apply IH. intros; apply H; right; assumption.
Qed.

Lemma length_flat_map_if (c : A -> bool) (h : A -> B) (l : list A) :
  length (flat_map (fun a => if c a then [h a] else []) l)
  = length (List.filter c l).
Proof.
  induction l as [|a l IH]; simpl; [reflexivity|].
  destruct (c a); simpl; rewrite IH; reflexivity.
Qed.

End lists.

(** Blocks that carry the key of the element they come from: filtering the
    concatenation on a key gives back that element's block. *)
Section keyed.

Context {A B K : Type} `{EqDecision K}.
Context (key : A -> K) (fkey : B -> K) (single : A -> list B).
Hypothesis single_key : forall a b, In b (single a) -> fkey b = key a.

Lemma filter_own_block (r : A) (l : list A) :
  NoDup (map key l) -> In r l ->
  List.filter (fun b => bool_decide (fkey b = key r)) (flat_map single l)
  = single r.
Proof.
  induction l as [|x l IH]; simpl; intros Hnd Hin; [destruct Hin|].
  apply NoDup_cons in Hnd as [Hx Hnd].
  rewrite List.filter_app.
  destruct (decide (key x = key r)) as [Heq|Hne].
  - assert (x = r) as ->.
    { destruct Hin as [H|H]; [exact H|]. exfalso. apply Hx.
      rewrite Heq. apply list_elem_of_In, in_map, H. }
    rewrite filter_all, filter_none; [apply app_nil_r| |].
    + intros b Hb. apply in_flat_map in Hb as (y & Hy & Hb).
      apply bool_decide_eq_false. rewrite (single_key _ _ Hb). intros Hk.
      apply Hx. rewrite <- Hk. apply list_elem_of_In, in_map, Hy.
    + intros b Hb. apply bool_decide_eq_true. exact (single_key _ _ Hb).
  - destruct Hin as [H|H]; [congruence|].
    rewrite filter_none, IH; [reflexivity|assumption..|].
    intros b Hb. apply bool_decide_eq_false.
    rewrite (single_key _ _ Hb). exact Hne.
Qed.

End keyed.

Section index.

Import notions.
Context {A : Type} `{EqDecision A}.

Lemma index_of_middle (l1 : list A) (x : A) (l2 : list A) :
  ~ In x l1 -> index_of x (l1 ++ x :: l2) = length l1.
Proof.
  induction l1 as [|y l1 IH]; simpl; intros Hn.
  - destruct (decide (x = x)); [reflexivity|congruence].
  - destruct (decide (x = y)) as [->|_];
      [exfalso; apply Hn; left; reflexivity|].
    f_equal. apply IH. intros H. apply Hn. right; exact H.
Qed.

Lemma NoDup_middle (l1 : list A) (x : A) (l2 : list A) :
  NoDup (l1 ++ x :: l2) -> ~ In x l1 /\ ~ In x l2.
Proof.
  intros H. apply NoDup_app in H as (_ & H1 & H2).
  apply NoDup_cons in H2 as [H2 _].
  split.
  - intros Hx%list_elem_of_In. apply (H1 x Hx). left.
  - intros Hx%list_elem_of_In. exact (H2 Hx).
Qed.

Lemma rank_in_list (l1 : list A) x l2 y l3 :
  NoDup (l1 ++ x :: l2 ++ y :: l3) ->
  (index_of x (l1 ++ x :: l2 ++ y :: l3)
   < index_of y (l1 ++ x :: l2 ++ y :: l3))%nat.
Proof.
  intros Hnd.
  rewrite index_of_middle by (apply (NoDup_middle _ _ _ Hnd)).
  replace (l1 ++ x :: l2 ++ y :: l3) with ((l1 ++ x :: l2) ++ y :: l3) in *
    by (rewrite <- app_assoc; reflexivity).
  rewrite index_of_middle by (apply (NoDup_middle _ _ _ Hnd)).
  rewrite length_app. simpl. lia.
Qed.

End index.

(** ** Lines *)

Section lines.

Context {A : Type}.

Lemma In_enumerate (l : list A) (start n : nat) (x : A) :
  In (n, x) (Py.enumerate l start) <->
  (start <= n)%nat /\ l !! (n - start)%nat = Some x.
Proof.
  revert start. induction l as [|y l IH]; simpl; intros start.
  - split; [tauto|]. intros [_ H]. discriminate.
  - rewrite IH. split.
    + intros [[= <- <-]|[H1 H2]].
      * split; [lia|].
        replace (start - start)%nat with O by lia. reflexivity.
      * split; [lia|].
        replace (n - start)%nat with (S (n - S start)) by lia. exact H2.
    + intros [H1 H2]. destruct (decide (n = start)) as [->|Hne].
      * left. replace (start - start)%nat with O in H2 by lia.
        simpl in H2. congruence.
      * right. split; [lia|].
        replace (n - start)%nat with (S (n - S start)) in H2 by lia. exact H2.
Qed.

Lemma enumerate_increasing (l : list A) (start : nat) l1 n x l2 m y l3 :
  Py.enumerate l start = l1 ++ (n, x) :: l2 ++ (m, y) :: l3 -> (n < m)%nat.
Proof.
  revert start l1. induction l as [|z l IH]; simpl; intros start l1 H.
  - destruct l1; discriminate.
  - destruct l1 as [|e l1]; simpl in H.
    + injection H as <- <- H.
      assert (Hin : In (m, y) (Py.enumerate l (S start))).
      { rewrite H. apply in_or_app. right. left. reflexivity. }
      apply In_enumerate in Hin. lia.
    + injection H as _ H. exact (IH _ _ H).
Qed.

Lemma enumerate_app (l1 l2 : list A) (start : nat) :
  Py.enumerate (l1 ++ l2) start
  = Py.enumerate l1 start ++ Py.enumerate l2 (start + length l1).
Proof.
  revert start. induction l1 as [|x l1 IH]; simpl; intros start.
  - rewrite Nat.add_0_r. reflexivity.
  - rewrite IH. simpl.
    replace (start + S (length l1))%nat with (S (start + length l1)) by lia.
    reflexivity.
Qed.

End lines.

Lemma split_nonempty (sep : N) (s : pystr) : Py.split sep s <> [].
Proof.
  destruct s as [|c s]; simpl; [discriminate|].
  destruct (c =? sep)%N; [discriminate|].
  destruct (Py.split sep s); discriminate.
Qed.

(** A trailing separator leaves one more piece, the empty one. *)
Lemma split_trailing (sep : N) (s : pystr) :
  Py.split sep (s ++ [sep]) = Py.split sep s ++ [[]].
Proof.
  induction s as [|c s IH]; simpl.
  - rewrite N.eqb_refl. reflexivity.
  - destruct (c =? sep)%N; [rewrite IH; reflexivity|].
    rewrite IH. pose proof (split_nonempty sep s) as Hne.
    destruct (Py.split sep s); [congruence|reflexivity].
Qed.

Lemma split_single (sep : N) (s : pystr) :
  ~ In sep s -> Py.split sep s = [s].
Proof.
  induction s as [|c s IH]; simpl; intros Hn; [reflexivity|].
  destruct (N.eqb_spec c sep) as [->|_];
    [exfalso; apply Hn; left; reflexivity|].
  rewrite IH by (intros H; apply Hn; right; exact H). reflexivity.
Qed.

(** ** The catalog and the line scanner *)

Section scanner.

Import vuln_scanner notions samples.

(** A finding drawn from the list one rule leaves for one line. *)
Ltac reported p x H :=
  destruct (re.search p x); [|destruct H]; destruct H as [<-|[]].

Lemma In_scan_lines (file_path : Path) (lines : list pystr) (f : Finding) :
  In f (scan_lines file_path lines) <->
  exists vuln_type patterns pattern rule_description line_num text,
    In (vuln_type, patterns) VULN_PATTERNS
    /\ In (pattern, rule_description) patterns
    /\ In (line_num, text) (Py.enumerate lines 1)
    /\ re.search pattern text = true
    /\ f = found file_path vuln_type rule_description line_num text.
Proof.
  unfold scan_lines. rewrite in_flat_map. split.
  - intros ([t ps] & Hc & H).
    apply in_flat_map in H as ([p d] & Hr & H).
    apply in_flat_map in H as ([n text] & Hl & H).
    destruct (re.search p text) eqn:Hs; [|destruct H].
    destruct H as [<-|[]]. exists t, ps, p, d, n, text. auto.
  - intros (t & ps & p & d & n & text & Hc & Hr & Hl & Hs & ->).
    exists (t, ps). split; [exact Hc|].
    apply in_flat_map. exists (p, d). split; [exact Hr|].
    apply in_flat_map. exists (n, text). split; [exact Hl|].
    rewrite Hs. left. reflexivity.
Qed.

(** What the catalog's own layout provides: categories and, within a
    category, descriptions are pairwise distinct, and no pattern matches the
    empty line. *)
Lemma catalog_layout :
  NoDup (map fst VULN_PATTERNS)
  /\ Forall (fun '(vuln_type, patterns) =>
               rules_for vuln_type VULN_PATTERNS = patterns
               /\ NoDup (map snd patterns)
               /\ Forall (fun '(pattern, _) => re.search pattern [] = false)
                    patterns)
       VULN_PATTERNS.
Proof.
  split.
  - apply (bool_decide_unpack _). vm_compute. exact I.
  - unfold VULN_PATTERNS at 2.
    repeat (apply Forall_cons; split;
      [split; [vm_compute; reflexivity|split;
        [apply (bool_decide_unpack _); vm_compute; exact I
        |repeat (apply Forall_cons; split; [vm_compute; reflexivity|]);
         constructor]]|]).
    constructor.
Qed.

Lemma catalog_entry (vuln_type : pystr) patterns :
  In (vuln_type, patterns) VULN_PATTERNS ->
  rules_for vuln_type VULN_PATTERNS = patterns
  /\ NoDup (map snd patterns)
  /\ (forall pattern (rule_description : pystr),
        In (pattern, rule_description) patterns ->
        re.search pattern [] = false).
Proof.
  intros H. destruct catalog_layout as [_ Hall].
  rewrite Forall_forall in Hall.
  apply list_elem_of_In in H.
  destruct (Hall _ H) as (H1 & H2 & H3).
  split; [exact H1|split; [exact H2|]].
  intros p d Hp. rewrite Forall_forall in H3.
  apply list_elem_of_In in Hp. exact (H3 _ Hp).
Qed.

Lemma rules_NoDup : NoDup (map rule_key rules).
Proof. apply (bool_decide_unpack _). vm_compute. exact I. Qed.

Lemma In_rules (vuln_type : pystr) patterns pattern (rule_description : pystr) :
  In (vuln_type, patterns) VULN_PATTERNS ->
  In (pattern, rule_description) patterns ->
  In (vuln_type, pattern, rule_description) rules.
Proof.
  intros Hc Hr. unfold rules. apply in_flat_map. exists (vuln_type, patterns).
  split; [exact Hc|].
  apply in_map_iff. exists (pattern, rule_description). auto.
Qed.

(** The findings come out category by category, rule by rule, line by
    line. *)
Lemma scan_lines_sorted (file_path : Path) (lines : list pystr) :
  StronglySorted report_order (scan_lines file_path lines).
Proof.
  destruct catalog_layout as [Hkeys _].
  unfold scan_lines. apply StronglySorted_flat_map.
  - intros [t ps] Hc. destruct (catalog_entry _ _ Hc) as (Hrules & Hdescr & _).
    apply StronglySorted_flat_map.
    + intros [p d] Hr. apply StronglySorted_flat_map.
      * intros [n text] _. destruct (re.search p text); repeat constructor.
      * intros l1 [n x] l2 [m y] l3 Hsplit a b Ha Hb.
        apply enumerate_increasing in Hsplit.
        reported p x Ha. reported p y Hb.
        right. split; [reflexivity|]. right. split; [reflexivity|].
        exact Hsplit.
    + intros l1 [p1 d1] l2 [p2 d2] l3 Hsplit a b Ha Hb.
      apply in_flat_map in Ha as ([n x] & _ & Ha). reported p1 x Ha.
      apply in_flat_map in Hb as ([m y] & _ & Hb). reported p2 y Hb.
      right. split; [reflexivity|]. left.
      unfold rule_rank. cbn [type description]. rewrite Hrules.
      rewrite Hsplit in Hdescr |- *.
      rewrite !map_app in *. simpl in *. rewrite !map_app in *. simpl in *.
      apply rank_in_list. exact Hdescr.
  - intros l1 [t1 ps1] l2 [t2 ps2] l3 Hsplit a b Ha Hb.
    apply in_flat_map in Ha as ([p1 d1] & _ & Ha).
    apply in_flat_map in Ha as ([n x] & _ & Ha). reported p1 x Ha.
    apply in_flat_map in Hb as ([p2 d2] & _ & Hb).
    apply in_flat_map in Hb as ([m y] & _ & Hb). reported p2 y Hb.
    left. unfold category_rank. cbn [type].
    rewrite Hsplit in Hkeys |- *.
    rewrite !map_app in *. simpl in *. rewrite !map_app in *. simpl in *.
    apply rank_in_list. exact Hkeys.
Qed.

(** A final empty line adds nothing to a scan. *)
Lemma scan_lines_trailing_empty (file_path : Path) (lines : list pystr) :
  scan_lines file_path (lines ++ [[]]) = scan_lines file_path lines.
Proof.
  unfold scan_lines. apply flat_map_ext_In. intros [t ps] Hc.
  destruct (catalog_entry _ _ Hc) as (_ & _ & Hempty).
  apply flat_map_ext_In. intros [p d] Hr.
  rewrite enumerate_app, flat_map_app. cbn [Py.enumerate flat_map].
  rewrite (Hempty _ _ Hr). cbn [app]. apply app_nil_r.
Qed.

(** On a single line the three loops collapse to one pass over the rules. *)
Lemma scan_one_line (file_path : Path) (text : pystr) :
  scan_lines file_path [text] = flat_map (on_line file_path text) rules.
Proof.
  unfold scan_lines, rules. rewrite flat_map_nested.
  apply flat_map_ext. intros [t ps].
  rewrite flat_map_of_map. apply flat_map_ext. intros [p d].
  simpl. apply app_nil_r.
Qed.

Lemma on_line_key (file_path : Path) (text : pystr) (r : rule) (f : Finding) :
  In f (on_line file_path text r) -> (type f, description f) = rule_key r.
Proof.
  destruct r as [[t p] d]. unfold on_line.
  destruct (re.search p text); [|intros []]. intros [<-|[]]. reflexivity.
Qed.

(** C4.  The severity of a category depends on the category alone, through
    a fixed table: SQL Injection, Command Injection and XSS are HIGH, Path
    Traversal is MEDIUM, and every other category, Hardcoded Secrets among
    them, is LOW. *)
Theorem get_severity_table (vuln_type : pystr) :
  (get_severity vuln_type = HIGH <->
     vuln_type = py "SQL Injection" \/ vuln_type = py "Command Injection"
     \/ vuln_type = py "XSS")
  /\ (get_severity vuln_type = MEDIUM <-> vuln_type = py "Path Traversal")
  /\ (get_severity vuln_type = LOW <->
        vuln_type <> py "SQL Injection" /\ vuln_type <> py "Command Injection"
        /\ vuln_type <> py "XSS" /\ vuln_type <> py "Path Traversal")
  /\ get_severity (py "Hardcoded Secrets") = LOW.
Proof.
  assert (Hpt : py "Path Traversal" ∉ high_severity) by (by vm_compute).
  unfold get_severity.
  split; [|split; [|split; [|by vm_compute]]].
  - case_bool_decide as Hh; [|repeat case_bool_decide];
      unfold high_severity in Hh; set_unfold;
      split; intros; try discriminate; tauto.
  - case_bool_decide as Hh; [|case_bool_decide as Hm];
      unfold medium_severity in *.
    + split; [discriminate|]. intros ->. by destruct Hpt.
    + set_unfold. by split.
    + set_unfold. split; [discriminate|done].
  - case_bool_decide as Hh; [|case_bool_decide as Hm];
      unfold high_severity, medium_severity in *; set_unfold;
      split; intros; try discriminate; try tauto.
Qed.

(** C3, as stated, fails: the line
    [query = "SELECT * FROM t WHERE id=" + user_id] is matched by no rule of
    the catalog, so scanning it reports nothing. *)
Lemma query_line_not_reported :
  scan_file [py "app.py"] (File (Some query_line)) = [].
Proof. vm_compute. reflexivity. Qed.

(** C3, amended.  The SQL rules look for a call of [execute] (or of
    [.format] with SELECT): the bare assignment is not reported, and the same
    concatenation passed to [cursor.execute] yields exactly one Finding, HIGH,
    SQL Injection, at line 1. *)
Theorem execute_line_reported (file_path : Path) :
  scan_file file_path (File (Some query_line)) = []
  /\ scan_file file_path (File (Some execute_line)) =
       [ {| file := Path_str file_path;
            line := 1;
            type := py "SQL Injection";
            description := py "String concatenation in SQL query";
            code := execute_line;
            severity := HIGH |} ].
Proof. split; vm_compute; reflexivity. Qed.

(** C5.  The findings of a file come in catalog order of categories, then
    in declaration order of the rules of a category, then by ascending line
    number; they are exactly the matches of a rule on a line (numbered from
    1), each carrying the rule's category and description and the trimmed
    line; and one line can be reported by several rules, as the sample line
    is by two. *)
Theorem scan_file_order (file_path : Path) (content : pystr) :
  let lines := Py.split NL content in
  let findings := scan_file file_path (File (Some content)) in
  StronglySorted report_order findings
  /\ (forall f : Finding,
        In f findings <->
        exists (vuln_type : pystr) patterns pattern (rule_description : pystr)
               (line_num : nat) (text : pystr),
          In (vuln_type, patterns) VULN_PATTERNS
          /\ In (pattern, rule_description) patterns
          /\ (1 <= line_num)%nat
          /\ lines !! (line_num - 1)%nat = Some text
          /\ re.search pattern text = true
          /\ f = {| file := Path_str file_path;
                    line := line_num;
                    type := vuln_type;
                    description := rule_description;
                    code := Py.strip text;
                    severity := get_severity vuln_type |})
  /\ map (fun f => (line f, type f, description f))
       (scan_file file_path (File (Some format_concat_line)))
     = [ (1%nat, py "SQL Injection", py "String formatting in SQL query");
         (1%nat, py "SQL Injection", py "String concatenation in SQL query") ].
Proof.
  intros lines findings. subst findings. unfold scan_file. cbn [read_text].
  fold lines. split; [apply scan_lines_sorted|].
  split; [|vm_compute; reflexivity].
  intros f. rewrite In_scan_lines. split.
  - intros (t & ps & p & d & n & text & Hc & Hr & Hl & Hs & ->).
    apply In_enumerate in Hl as [Hn Hl].
    exists t, ps, p, d, n, text. auto 10.
  - intros (t & ps & p & d & n & text & Hc & Hr & Hn & Hl & Hs & ->).
    exists t, ps, p, d, n, text. rewrite In_enumerate. auto 10.
Qed.

(** C10.  Every Finding is consistent with the text it was found in: its
    severity is the one of its category, its line number lies between 1 and
    the number of lines, and its code is the trimmed text of that line, which
    is never empty (so the empty last line a trailing newline leaves is never
    reported). *)
Theorem finding_consistent (file_path : Path) (content : pystr) (f : Finding) :
  In f (scan_file file_path (File (Some content))) ->
  let lines := Py.split NL content in
  severity f = get_severity (type f)
  /\ (1 <= line f <= length lines)%nat
  /\ exists text : pystr,
       lines !! (line f - 1)%nat = Some text
       /\ code f = Py.strip text
       /\ text <> [].
Proof.
  intros Hf lines. unfold scan_file in Hf. cbn [read_text] in Hf.
  fold lines in Hf.
  apply In_scan_lines in Hf
    as (t & ps & p & d & n & text & Hc & Hr & Hl & Hs & ->).
  apply In_enumerate in Hl as [Hn Hl].
  destruct (catalog_entry _ _ Hc) as (_ & _ & Hempty).
  cbn [severity type line code found].
  split; [reflexivity|]. split.
  - apply lookup_lt_Some in Hl. lia.
  - exists text. split; [exact Hl|]. split; [reflexivity|].
    intros ->. rewrite (Hempty _ _ Hr) in Hs. discriminate.
Qed.

Lemma finding_consistent_witness :
  let f := {| file := py "/app.py"; line := 2; type := py "XSS";
              description := py "Dangerous eval() usage";
              code := py "eval(x)"; severity := HIGH |} in
  let lines := Py.split NL (py "a = 1" ++ [NL] ++ py "  eval(x)" ++ [NL]) in
  severity f = get_severity (type f)
  /\ (1 <= line f <= length lines)%nat
  /\ exists text : pystr,
       lines !! (line f - 1)%nat = Some text
       /\ code f = Py.strip text
       /\ text <> [].
Proof.
  apply (finding_consistent [py "app.py"]
           (py "a = 1" ++ [NL] ++ py "  eval(x)" ++ [NL])).
  vm_compute. left. reflexivity.
Defined.

(** C9, as stated, fails: the line [execute("a%s" % x + y)] triggers the
    rule "String concatenation in SQL query", and scanning it yields two
    Findings, since the rule "String formatting in SQL query" matches it as
    well. *)
Lemma two_rules_one_line :
  exists pattern : re.pattern,
    In (py "SQL Injection", pattern, py "String concatenation in SQL query")
      rules
    /\ re.search pattern format_concat_line = true
    /\ length (scan_file [py "db.py"] (File (Some format_concat_line)))
       = 2%nat.
Proof.
  eexists. split; [right; left; reflexivity|].
  split; vm_compute; reflexivity.
Qed.

(** C9, amended.  For every rule of the catalog and every one-line text
    that triggers it (with or without a final newline), the scan yields
    exactly one Finding of that rule, with the rule's category and
    description, the severity of that category and line number 1; every
    Finding of the scan is at line 1 with the severity of its own category;
    and there is one Finding for each rule the line triggers. *)
Theorem one_line_one_finding_per_rule
    (vuln_type : pystr) (patterns : list (re.pattern * pystr))
    (pattern : re.pattern) (rule_description : pystr)
    (file_path : Path) (text content : pystr) :
  In (vuln_type, patterns) VULN_PATTERNS ->
  In (pattern, rule_description) patterns ->
  ~ In NL text ->
  content = text \/ content = text ++ [NL] ->
  re.search pattern text = true ->
  let findings := scan_file file_path (File (Some content)) in
  List.filter (reported_by vuln_type rule_description) findings
    = [ {| file := Path_str file_path;
           line := 1;
           type := vuln_type;
           description := rule_description;
           code := Py.strip text;
           severity := get_severity vuln_type |} ]
  /\ Forall (fun f => line f = 1%nat /\ severity f = get_severity (type f))
       findings
  /\ length findings = length (triggered text).
Proof.
  intros Hc Hr Hnl Hcontent Hs findings.
  assert (Hfind : findings = flat_map (on_line file_path text) rules).
  { subst findings. unfold scan_file. cbn [read_text].
    destruct Hcontent as [->| ->].
    - rewrite split_single by exact Hnl. apply scan_one_line.
    - rewrite split_trailing, split_single by exact Hnl.
      change [text; []] with ([text] ++ [[]]).
      rewrite scan_lines_trailing_empty. apply scan_one_line. }
  rewrite Hfind. clear Hfind findings.
  split; [|split].
  - rewrite (filter_ext _ (fun f => bool_decide
               ((type f, description f) = (vuln_type, rule_description)))).
    + rewrite (filter_own_block rule_key
                 (fun f => (type f, description f)) (on_line file_path text)
                 (on_line_key file_path text)
                 (vuln_type, pattern, rule_description) rules rules_NoDup
                 (In_rules _ _ _ _ Hc Hr)).
      unfold on_line. rewrite Hs. reflexivity.
    + intros f. unfold reported_by. apply bool_decide_ext.
      split; [intros [-> ->]; reflexivity|intros [= -> ->]; auto].
  - apply Forall_forall. intros f Hf%list_elem_of_In.
    apply in_flat_map in Hf as ([[t p] d] & _ & Hf). unfold on_line in Hf.
    reported p text Hf. split; reflexivity.
  - pose proof (length_flat_map_if
                  (fun '(_, p, _) => re.search p text)
                  (fun '(t, _, d) => found file_path t d 1 text) rules) as Hlen.
    etransitivity; [|exact Hlen]. reflexivity.
Qed.

Lemma one_line_one_finding_per_rule_witness :
  let findings :=
    scan_file [py "db.py"] (File (Some (format_concat_line ++ [NL]))) in
  List.filter (reported_by (py "SQL Injection")
                 (py "String concatenation in SQL query")) findings
    = [ {| file := py "/db.py";
           line := 1;
           type := py "SQL Injection";
           description := py "String concatenation in SQL query";
           code := format_concat_line;
           severity := HIGH |} ]
  /\ Forall (fun f => line f = 1%nat /\ severity f = get_severity (type f))
       findings
  /\ length findings = 2%nat.
Proof.
  eapply (one_line_one_finding_per_rule
            (py "SQL Injection") _ _ (py "String concatenation in SQL query")
            [py "db.py"] format_concat_line (format_concat_line ++ [NL])).
  - left. reflexivity.
  - right. left. reflexivity.
  - vm_compute. intuition discriminate.
  - right. reflexivity.
  - vm_compute. reflexivity.
Defined.

End scanner.

(** ** The directory walk *)

Section walk.

Import vuln_scanner notions samples.

(** Induction on a tree, with the property in hand for every entry of a
    directory. *)
Lemma node_ind_entries (P : node -> Prop) :
  (forall contents, P (File contents)) ->
  (forall entries, Forall (fun e => P (snd e)) entries -> P (Dir entries)) ->
  forall n, P n.
Proof.
  intros Hfile Hdir.
  refine (fix IH (n : node) : P n :=
            match n with
            | File contents => Hfile contents
            | Dir entries =>
                Hdir entries
                  ((fix go (es : list (pystr * node))
                      : Forall (fun e => P (snd e)) es :=
                      match es with
                      | [] => List.Forall_nil _
                      | (name, child) :: es' =>
                          @List.Forall_cons _ (fun e => P (snd e))
                            (name, child) es' (IH child) (go es')
                      end) entries)
            end).
Qed.

Lemma os_walk_Dir (keep : pystr -> bool) (top : Path) entries :
  os_walk keep top (Dir entries)
  = (top,
     map fst (List.filter (fun e => is_dir (snd e)) entries),
     List.filter (fun e => negb (is_dir (snd e))) entries)
    :: flat_map (fun '(name, child) =>
                   if is_dir child && keep name
                   then os_walk keep (top ++ [name]) child else [])
         entries.
Proof.
  cbn [os_walk]. f_equal.
  induction entries as [|[name child] es IH]; [reflexivity|].
  cbn [flat_map]. rewrite <- IH. reflexivity.
Qed.

(** Every directory the pruned walk lists lies below the top through kept
    names only. *)
Lemma os_walk_roots (keep : pystr -> bool) (n : node) :
  forall (top : Path) (t : triple),
    In t (os_walk keep top n) ->
    exists ds : list pystr,
      fst (fst t) = top ++ ds /\ Forall (fun d => keep d = true) ds.
Proof.
  induction n as [contents|entries IH] using node_ind_entries;
    intros top t Ht.
  - destruct Ht.
  - rewrite os_walk_Dir in Ht. destruct Ht as [<-|Ht].
    + exists []. split; [symmetry; apply app_nil_r|constructor].
    + apply in_flat_map in Ht as ([name child] & He & Ht).
      destruct (is_dir child && keep name) eqn:Hk; [|destruct Ht].
      apply andb_prop in Hk as [_ Hk].
      rewrite Forall_forall in IH.
      destruct (IH (name, child) (proj2 (list_elem_of_In _ _) He) _ _ Ht)
        as (ds & Hroot & Hds).
      exists (name :: ds). split.
      * rewrite Hroot, <- app_assoc. reflexivity.
      * constructor; assumption.
Qed.

Lemma advance_nil (st : scan_state) : advance st [] = st.
Proof.
  destruct st as [af n o]. unfold advance. cbn.
  rewrite !app_nil_r, Z.add_0_r. reflexivity.
Qed.

Lemma advance_app (st : scan_state) (l1 l2 : list (Path * node)) :
  advance (advance st l1) l2 = advance st (l1 ++ l2).
Proof.
  unfold advance. cbn.
  rewrite flat_map_app, map_app, length_app, !app_assoc, Nat2Z.inj_add,
    Z.add_assoc.
  reflexivity.
Qed.

(** The inner loop scans the scannable entries of the directory for as long
    as the cap leaves room. *)
Lemma scan_files_take (max_files : Z) (root : Path) files (st : scan_state) :
  scan_files max_files root files st
  = advance st (take (Z.to_nat (max_files - files_scanned st))
                  (scannable_in root files)).
Proof.
  revert st. induction files as [|entry rest IH]; intros st; cbn [scan_files].
  - unfold scannable_in. cbn. rewrite take_nil. symmetry. apply advance_nil.
  - destruct (Z.geb_spec (files_scanned st) max_files) as [Hge|Hlt].
    + replace (Z.to_nat (max_files - files_scanned st)) with O by lia.
      rewrite take_0. symmetry. apply advance_nil.
    + rewrite IH. unfold scan_entry, scannable_in.
      cbn [map List.filter fst snd].
      destruct (scannable (root ++ [fst entry])) eqn:Hs; [|reflexivity].
      cbn [files_scanned].
      replace (Z.to_nat (max_files - files_scanned st))
        with (S (Z.to_nat (max_files - (files_scanned st + 1)))) by lia.
      cbn [take].
      change ((root ++ [fst entry], snd entry) :: ?l)
        with ([(root ++ [fst entry], snd entry)] ++ l).
      rewrite <- advance_app. f_equal.
      unfold advance. cbn. rewrite app_nil_r. reflexivity.
Qed.

(** So does the outer loop, over the whole walk. *)
Lemma walk_loop_take (max_files : Z) (walk : list triple) (st : scan_state) :
  walk_loop max_files walk st
  = advance st
      (take (Z.to_nat (max_files - files_scanned st))
         (flat_map (fun '(root, _, files) => scannable_in root files) walk)).
Proof.
  revert st. induction walk as [|[[root dirs] files] rest IH]; intros st;
    cbn [walk_loop flat_map].
  - rewrite take_nil. symmetry. apply advance_nil.
  - rewrite scan_files_take.
    set (k := Z.to_nat (max_files - files_scanned st)).
    set (E := scannable_in root files).
    assert (Hn : files_scanned (advance st (take k E))
                 = files_scanned st + Z.of_nat (Nat.min k (length E))).
    { unfold advance. cbn. rewrite length_take. reflexivity. }
    destruct (Z.geb_spec (files_scanned (advance st (take k E))) max_files)
      as [Hge|Hlt]; rewrite Hn in *.
    + rewrite take_app_le by lia. reflexivity.
    + rewrite IH, Hn, advance_app. f_equal.
      rewrite take_app. rewrite (take_ge E) by lia. f_equal. f_equal. lia.
Qed.

Lemma scan_directory_take (path : Path) (tree : node) (max_files : Z) :
  scan_directory path tree max_files
  = advance {| all_findings := []; files_scanned := 0; opened := [] |}
      (take (Z.to_nat max_files) (reachable_files path tree)).
Proof.
  unfold scan_directory. rewrite walk_loop_take. cbn [files_scanned].
  rewrite Z.sub_0_r. reflexivity.
Qed.

(** C2, as stated, fails.  A tree whose two scannable files both sit under
    [node_modules] holds M = 2 of them, yet a scan capped at N = 1 counts
    none; and a negative cap is never reached from below: with one scannable
    file and N = -1 the count is 0. *)
Lemma scan_directory_cap_fails_as_stated :
  length (all_files [py "proj"] cache_only) = 2%nat
  /\ files_scanned (scan_directory [py "proj"] cache_only 1) = 0
  /\ length (all_files build_root build_tree) = 1%nat
  /\ files_scanned (scan_directory build_root build_tree (-1)) = 0.
Proof. repeat split; vm_compute; reflexivity. Qed.

(** C2, amended.  When the cap N is not negative and the walk, pruned of
    the skipped directories, reaches M > N files with a scannable extension,
    the scan counts exactly N files: it opens the first N of them in
    traversal order, whatever directories they are in, and its findings are
    theirs. *)
Theorem scan_directory_cap (path : Path) (tree : node) (max_files : Z) :
  0 <= max_files ->
  max_files < Z.of_nat (length (reachable_files path tree)) ->
  let scanned := take (Z.to_nat max_files) (reachable_files path tree) in
  let st := scan_directory path tree max_files in
  files_scanned st = max_files
  /\ opened st = map fst scanned
  /\ all_findings st = flat_map (fun e => scan_file (fst e) (snd e)) scanned.
Proof.
  intros H0 HM scanned st. subst st. rewrite scan_directory_take. fold scanned.
  unfold advance. cbn. split; [|split; reflexivity].
  subst scanned. rewrite length_take. lia.
Qed.

Lemma scan_directory_cap_witness :
  let st := scan_directory [py "proj"] project 1 in
  files_scanned st = 1
  /\ opened st = [[py "proj"; py "a.py"]]
  /\ all_findings st = scan_file [py "proj"; py "a.py"] eval_file.
Proof.
  pose proof (scan_directory_cap [py "proj"] project 1) as H.
  cbv zeta in H.
  replace (take (Z.to_nat 1) (reachable_files [py "proj"] project))
    with [([py "proj"; py "a.py"], eval_file)] in H by (vm_compute; reflexivity).
  cbn [map flat_map fst snd] in H. rewrite app_nil_r in H.
  apply H; vm_compute; [discriminate|reflexivity].
Defined.

(** C6, as stated, fails.  The exclusion set is applied to the directories
    the walk finds, not to the directory the scan starts from: a scan rooted
    at [proj/build] opens [proj/build/a.py], a file beneath a directory whose
    base name is in the set. *)
Lemma scan_root_in_build_is_scanned :
  In (py "build") build_root
  /\ py "build" ∈ SKIP_DIRS
  /\ opened (scan_directory build_root build_tree 1000)
     = [build_root ++ [py "a.py"]].
Proof.
  split; [right; left; reflexivity|]. split.
  - apply (bool_decide_unpack _). vm_compute. exact I.
  - vm_compute. reflexivity.
Qed.

(** C6, amended.  Below the scan root, no file beneath a directory whose
    base name is in the exclusion set is ever opened, at any depth and for
    any cap, and the walk lists neither such a directory nor anything under
    it. *)
Theorem pruned_directories_not_scanned (path : Path) (tree : node)
    (max_files : Z) (dirs : list pystr) (d : pystr) :
  In d dirs -> d ∈ SKIP_DIRS ->
  (forall name : pystr,
     ~ In (path ++ dirs ++ [name])
         (opened (scan_directory path tree max_files)))
  /\ (forall below : list pystr,
        ~ In (path ++ dirs ++ below)
            (map (fun t : triple => fst (fst t))
               (os_walk keep_dir path tree))).
Proof.
  intros Hd Hskip.
  assert (Hkept : forall ds,
            Forall (fun d => keep_dir d = true) ds -> ~ In d ds).
  { intros ds Hds Hin. rewrite Forall_forall in Hds.
    specialize (Hds d (proj2 (list_elem_of_In _ _) Hin)).
    unfold keep_dir in Hds.
    rewrite bool_decide_eq_true_2 in Hds by exact Hskip.
    discriminate. }
  split.
  - intros name Hin. rewrite scan_directory_take in Hin.
    unfold advance in Hin. cbn [opened app] in Hin.
    apply in_map_iff in Hin as ([p f] & Hp & Hin). cbn in Hp. subst p.
    apply list_elem_of_In, (subseteq_take _ _ _), list_elem_of_In in Hin.
    unfold reachable_files, files_in in Hin.
    apply in_flat_map in Hin as ([[root ds'] files] & Ht & Hin).
    apply filter_In in Hin as [Hin _].
    apply in_map_iff in Hin as (e & He & _).
    injection He as He _.
    apply os_walk_roots in Ht as (ds & Hroot & Hds). cbn in Hroot. subst root.
    rewrite <- app_assoc in He. apply app_inv_head in He.
    apply app_inj_tail in He as [-> _].
    exact (Hkept _ Hds Hd).
  - intros below Hin.
    apply in_map_iff in Hin as (t & Hroot & Ht).
    apply os_walk_roots in Ht as (ds & Hroot' & Hds).
    rewrite Hroot' in Hroot. apply app_inv_head in Hroot. subst ds.
    apply (Hkept _ Hds). apply in_or_app. left. exact Hd.
Qed.

Lemma pruned_directories_not_scanned_witness :
  (forall name : pystr,
     ~ In ([py "proj"] ++ [py "node_modules"] ++ [name])
         (opened (scan_directory [py "proj"] project 1000)))
  /\ (forall below : list pystr,
        ~ In ([py "proj"] ++ [py "node_modules"] ++ below)
            (map (fun t : triple => fst (fst t))
               (os_walk keep_dir [py "proj"] project))).
Proof.
  apply (pruned_directories_not_scanned [py "proj"] project 1000
           [py "node_modules"] (py "node_modules")).
  - left. reflexivity.
  - apply (bool_decide_unpack _). vm_compute. exact I.
Defined.

(** The report shows the count it is given: in the no-findings message, or
    on the [Files Scanned] line under the header. *)
Lemma format_results_shows_count (findings : list Finding) (n : Z) :
  findings = []
  /\ format_results findings n
     = [NL] ++ py "[" ++ [CHECK_MARK] ++ py "] No vulnerabilities found ("
       ++ Py.str_of_int n ++ py " files scanned)" ++ [NL]
  \/ findings <> []
     /\ exists rest : pystr,
          format_results findings n
          = [NL] ++ Py.times (ch "=") 70 ++ [NL]
            ++ py "Vulnerability Scan Results" ++ [NL]
            ++ Py.times (ch "=") 70 ++ [NL]
            ++ py "Files Scanned: " ++ Py.str_of_int n ++ [NL] ++ rest.
Proof.
  destruct findings as [|f findings]; [left; split; reflexivity|right].
  split; [discriminate|]. eexists. unfold format_results. reflexivity.
Qed.

End walk.

(** ** The dispatcher *)

Section dispatcher.

Import plugin_manager samples.

(** C8.  "scan" is an alias of "vuln_scan": both names resolve to the same
    registry entry, and dispatching either with the same arguments (a path
    among them or not) gives the same result, whatever the collaborator
    does. *)
Theorem alias_scan_same_result {A} (import_module : importer A) (args : A) :
  default (py "scan") (ALIASES !! py "scan") = py "vuln_scan"
  /\ default (py "vuln_scan") (ALIASES !! py "vuln_scan") = py "vuln_scan"
  /\ PLUGIN_REGISTRY !! py "vuln_scan" = Some (py "plugins", py "vuln_scanner")
  /\ run_plugin import_module (py "scan") args
     = run_plugin import_module (py "vuln_scan") args.
Proof.
  assert (H1 : ALIASES !! py "scan" = Some (py "vuln_scan"))
    by (vm_compute; reflexivity).
  assert (H2 : ALIASES !! py "vuln_scan" = None) by (vm_compute; reflexivity).
  unfold run_plugin. rewrite H1, H2. simpl.
  split; [reflexivity|]. split; [reflexivity|].
  split; [vm_compute; reflexivity|]. reflexivity.
Qed.

(** C1, as stated, fails.  [except Exception] lets through what is not an
    [Exception]: a collaborator that leaves the interpreter with [SystemExit]
    makes the dispatcher raise. *)
Lemma run_plugin_lets_exit_through :
  run_plugin exiting (py "vuln_scan") tt
  = Raise {| class := SystemExit; message := py "1" |}.
Proof. vm_compute. reflexivity. Qed.

(** C1, amended.  For every task name and every arguments.  A name with
    no registry entry after one alias step gives the unknown-plugin string.
    Whatever the dispatcher raises is not an instance of [Exception].  For a
    registered name: when both imports fail with an [ImportError] the result
    is the execution-failed string with the plugin-not-found text; when an
    import fails with any other exception, that exception comes back as the
    execution-failed string with its text if it is an [Exception], and is
    raised to the caller if it is not; when the module is imported, a module
    with neither entry point gives the no-entry-point string, and otherwise
    the entry point is called ([run_plugin] before [run]): what it returns is
    returned, an [Exception] it raises comes back as the execution-failed
    string with its text, and any other exception it raises is raised to the
    caller. *)
Theorem run_plugin_converts_exceptions {A} (import_module : importer A)
    (task : pystr) (args : A) :
  let resolved_task := default task (ALIASES !! task) in
  let failed (e : exception) : outcome value :=
    if is_Exception (class e)
    then Return (Str (py "[!] Plugin execution failed: " ++ message e))
    else Raise e in
  (PLUGIN_REGISTRY !! resolved_task = None ->
     run_plugin import_module task args
     = Return (Str (py "[!] Unknown plugin: " ++ task)))
  /\ (forall e, run_plugin import_module task args = Raise e ->
        is_Exception (class e) = false)
  /\ (forall (category module_name : pystr),
        PLUGIN_REGISTRY !! resolved_task = Some (category, module_name) ->
        let first := import_module (category ++ py "." ++ module_name) in
        let second := import_module (py "plugins." ++ module_name) in
        let retried (o : outcome (module A)) : Prop :=
          first = o
          \/ exists e1, first = Raise e1 /\ is_ImportError (class e1) = true
                        /\ second = o in
        (forall e1 e2,
           first = Raise e1 -> is_ImportError (class e1) = true ->
           second = Raise e2 -> is_ImportError (class e2) = true ->
           run_plugin import_module task args
           = Return (Str (py "[!] Plugin execution failed: Plugin not found: "
                          ++ category ++ py "." ++ module_name ++ [NL]
                          ++ py "Error: " ++ message e2)))
        /\ (forall e,
              retried (Raise e) -> is_ImportError (class e) = false ->
              run_plugin import_module task args = failed e)
        /\ (forall m,
              retried (Return m) ->
              run_plugin import_module task args
              = match attr_run_plugin m, attr_run m with
                | Some entry_point, _ | None, Some entry_point =>
                    match entry_point args with
                    | Return v => Return v
                    | Raise e => failed e
                    end
                | None, None =>
                    Return (Str (py "[!] Plugin " ++ module_name
                                 ++ py " has no run() or run_plugin() function"))
                end)).
Proof.
  intros resolved_task failed. unfold run_plugin. subst resolved_task.
  split; [|split].
  - intros ->. reflexivity.
  - intros e.
    destruct (PLUGIN_REGISTRY !! _) as [[category module_name]|];
      [|discriminate].
    unfold try_except.
    destruct (bind _ _) as [v|e']; [discriminate|].
    destruct (is_Exception (class e')) eqn:He'; [discriminate|].
    intros [= <-]. exact He'.
  - intros category module_name ->.
    set (first := import_module (category ++ py "." ++ module_name)).
    set (second := import_module (py "plugins." ++ module_name)).
    assert (Hload : forall o,
              first = o
              \/ (exists e1, first = Raise e1 /\ is_ImportError (class e1) = true
                             /\ second = o) ->
              match o with
              | Raise e => is_ImportError (class e) = false
              | Return _ => True
              end ->
              _load_plugin_module import_module category module_name = o).
    { intros o [Ho|(e1 & H1 & Hc1 & Ho)] Hclass; unfold _load_plugin_module;
        fold first; fold second.
      - rewrite Ho. destruct o as [m|e]; cbn [try_except]; [reflexivity|].
        rewrite Hclass. reflexivity.
      - rewrite H1. cbn [try_except]. rewrite Hc1, Ho.
        destruct o as [m|e]; cbn [try_except]; [reflexivity|].
        rewrite Hclass. reflexivity. }
    split; [|split].
    + intros e1 e2 H1 Hc1 H2 Hc2.
      unfold _load_plugin_module, try_except. fold first. fold second.
      rewrite H1, Hc1, H2, Hc2. reflexivity.
    + intros e He Hclass. rewrite (Hload (Raise e) He Hclass).
      subst failed. cbn [bind try_except].
      destruct (is_Exception (class e)); reflexivity.
    + intros m Hm. rewrite (Hload (Return m) Hm I). cbn [bind].
      subst failed. cbv beta.
      destruct (attr_run_plugin m) as [f|]; [|destruct (attr_run m) as [g|]];
        reflexivity.
Qed.

Lemma run_plugin_converts_exceptions_witness :
  run_plugin nothing_installed (py "nope") tt
    = Return (Str (py "[!] Unknown plugin: nope"))
  /\ run_plugin nothing_installed (py "scan") tt
    = Return (Str (py "[!] Plugin execution failed: Plugin not found: plugins.vuln_scanner"
                   ++ [NL] ++ py "Error: No module named 'plugins.vuln_scanner'"))
  /\ run_plugin broken (py "scan") tt
    = Return (Str (py "[!] Plugin execution failed: invalid syntax"))
  /\ run_plugin hollow (py "scan") tt
    = Return (Str (py "[!] Plugin vuln_scanner has no run() or run_plugin() function"))
  /\ run_plugin crashing (py "scan") tt
    = Return (Str (py "[!] Plugin execution failed: disk full")).
Proof.
  assert (Hreg : PLUGIN_REGISTRY !! default (py "scan") (ALIASES !! py "scan")
                 = Some (py "plugins", py "vuln_scanner"))
    by (vm_compute; reflexivity).
  split; [|split; [|split; [|split]]].
  - apply (proj1 (run_plugin_converts_exceptions
                    nothing_installed (py "nope") tt)).
    vm_compute. reflexivity.
  - apply (proj1 (proj2 (proj2 (run_plugin_converts_exceptions
                                  nothing_installed (py "scan") tt))
                    (py "plugins") (py "vuln_scanner") Hreg)
             {| class := ModuleNotFoundError;
                message := py "No module named 'plugins.vuln_scanner'" |}
             {| class := ModuleNotFoundError;
                message := py "No module named 'plugins.vuln_scanner'" |});
      reflexivity.
  - apply (proj1 (proj2 (proj2 (proj2 (run_plugin_converts_exceptions
                                         broken (py "scan") tt))
                           (py "plugins") (py "vuln_scanner") Hreg))
             {| class := OtherException; message := py "invalid syntax" |});
      [left; reflexivity|reflexivity].
  - apply (proj2 (proj2 (proj2 (proj2 (run_plugin_converts_exceptions
                                         hollow (py "scan") tt))
                           (py "plugins") (py "vuln_scanner") Hreg))
             {| attr_run_plugin := None; attr_run := None |}).
    left. reflexivity.
  - apply (proj2 (proj2 (proj2 (proj2 (run_plugin_converts_exceptions
                                         crashing (py "scan") tt))
                           (py "plugins") (py "vuln_scanner") Hreg))
             {| attr_run_plugin :=
                  Some (fun _ : unit =>
                          Raise {| class := OtherException;
                                   message := py "disk full" |});
                attr_run := None |}).
    left. reflexivity.
Defined.

End dispatcher.

(** * Further properties *)

(** ** The line scanner *)

Section more_scanner.

Import vuln_scanner notions derived samples.

Lemma rules_In (r : rule) :
  In r rules <->
  exists patterns,
    In (fst (fst r), patterns) VULN_PATTERNS
    /\ In (snd (fst r), snd r) patterns.
Proof.
  destruct r as [[t p] d]. cbn [fst snd]. unfold rules.
  rewrite in_flat_map. split.
  - intros ([t' ps] & Hc & Hr).
    apply in_map_iff in Hr as ([p' d'] & [= -> -> ->] & Hr).
    exists ps. auto.
  - intros (ps & Hc & Hr). exists (t, ps). split; [exact Hc|].
    apply in_map_iff. exists (p, d). auto.
Qed.

(** The three loops, rule by rule over the flattened catalog. *)
Lemma scan_lines_by_rule (file_path : Path) (lines : list pystr) :
  scan_lines file_path lines
  = flat_map (fun r => flat_map (reports file_path r) (Py.enumerate lines 1))
      rules.
Proof.
  unfold scan_lines, rules. rewrite flat_map_nested.
  apply flat_map_ext. intros [t ps].
  rewrite flat_map_of_map. apply flat_map_ext. intros [p d].
  apply flat_map_ext. intros [n text]. reflexivity.
Qed.

Lemma In_triggered (r : rule) (text : pystr) :
  In r (triggered text) <-> In r rules /\ re.search (snd (fst r)) text = true.
Proof.
  unfold triggered. rewrite filter_In. destruct r as [[t p] d]. reflexivity.
Qed.

(** X1.  A file is reported clean exactly when none of its lines triggers a
    rule of the catalog. *)
Theorem scan_file_clean_iff (file_path : Path) (content : pystr) :
  scan_file file_path (File (Some content)) = []
  <-> forall text, In text (Py.split NL content) -> triggered text = [].
Proof.
  unfold scan_file. cbn [read_text]. set (lines := Py.split NL content).
  split.
  - intros Hnone text Htext.
    destruct (triggered text) as [|r rs] eqn:Htr; [reflexivity|exfalso].
    assert (Hr : In r (triggered text)) by (rewrite Htr; left; reflexivity).
    apply In_triggered in Hr as [Hr Hs].
    apply rules_In in Hr as (ps & Hc & Hp).
    apply list_elem_of_In, list_elem_of_lookup in Htext as [i Hi].
    assert (Hf : In (found file_path (fst (fst r)) (snd r) (S i) text)
                   (scan_lines file_path lines)).
    { apply In_scan_lines.
      exists (fst (fst r)), ps, (snd (fst r)), (snd r), (S i), text.
      repeat split; try assumption.
      apply In_enumerate. split; [lia|].
      replace (S i - 1)%nat with i by lia. exact Hi. }
    rewrite Hnone in Hf. destruct Hf.
  - intros Hclean.
    destruct (scan_lines file_path lines) as [|f fs] eqn:Hscan; [reflexivity|].
    exfalso.
    assert (Hf : In f (scan_lines file_path lines))
      by (rewrite Hscan; left; reflexivity).
    apply In_scan_lines in Hf
      as (t & ps & p & d & n & text & Hc & Hr & Hl & Hs & _).
    apply In_enumerate in Hl as [_ Hl].
    assert (Htext : In text lines).
    { apply list_elem_of_In, list_elem_of_lookup. eauto. }
    assert (Htr : In (t, p, d) (triggered text)).
    { apply In_triggered. split; [apply (In_rules _ ps); assumption|exact Hs]. }
    rewrite (Hclean _ Htext) in Htr. destruct Htr.
Qed.

Lemma list_sum_map_add {A} (g h : A -> nat) (l : list A) :
  list_sum (map (fun a => (g a + h a)%nat) l)
  = (list_sum (map g l) + list_sum (map h l))%nat.
Proof. induction l as [|a l IH]; simpl; [reflexivity|]. rewrite IH. lia. Qed.

Lemma list_sum_swap {A B} (g : A -> B -> nat) (la : list A) (lb : list B) :
  list_sum (map (fun a => list_sum (map (g a) lb)) la)
  = list_sum (map (fun b => list_sum (map (fun a => g a b) la)) lb).
Proof.
  induction la as [|a la IH]; simpl.
  - induction lb as [|b lb IHb]; simpl; [reflexivity|]. exact IHb.
  - rewrite IH, <- list_sum_map_add. reflexivity.
Qed.

Lemma map_enumerate {A B} (h : A -> B) (l : list A) (start : nat) :
  map (fun e => h (snd e)) (Py.enumerate l start) = map h l.
Proof.
  revert start. induction l as [|x l IH]; intros start; simpl; [reflexivity|].
  rewrite IH. reflexivity.
Qed.

(** X2.  Nothing is merged and nothing is lost: a scan yields as many
    findings as there are pairs of a line and a rule the line triggers. *)
Theorem scan_file_count (file_path : Path) (content : pystr) :
  length (scan_file file_path (File (Some content)))
  = list_sum (map (fun text => length (triggered text)) (Py.split NL content)).
Proof.
  unfold scan_file. cbn [read_text]. set (lines := Py.split NL content).
  rewrite scan_lines_by_rule, length_flat_map.
  transitivity
    (list_sum (map (fun r : rule =>
       list_sum (map (fun text =>
         if re.search (snd (fst r)) text then 1%nat else 0%nat) lines)) rules)).
  - f_equal. apply map_ext. intros [[t p] d]. cbn [fst snd].
    rewrite length_flat_map.
    rewrite <- (map_enumerate
                  (fun text => if re.search p text then 1%nat else 0%nat)
                  lines 1).
    f_equal. apply map_ext. intros [n text]. cbn [reports snd fst].
    destruct (re.search p text); reflexivity.
  - rewrite list_sum_swap. f_equal. apply map_ext. intros text.
    unfold triggered. generalize rules. intros l.
    induction l as [|[[t p] d] l IH]; simpl; [reflexivity|].
    rewrite IH. destruct (re.search p text); reflexivity.
Qed.

(** *** Case *)

Lemma isspace_range (c : N) :
  Py.isspace c = true -> (c <= 32 \/ 133 <= c)%N.
Proof.
  unfold Py.isspace.
  rewrite !Bool.orb_true_iff, !Bool.andb_true_iff, !N.leb_le, !N.eqb_eq. lia.
Qed.

Lemma ascii_lower_cases (c : N) :
  (65 <= c <= 90)%N /\ Py.ascii_lower c = (c + 32)%N
  \/ ~ (65 <= c <= 90)%N /\ Py.ascii_lower c = c.
Proof.
  unfold Py.ascii_lower.
  destruct (N.leb_spec 65 c); destruct (N.leb_spec c 90); cbn; lia.
Qed.

Lemma fold_lower (c : N) : re.fold (Py.ascii_lower c) = re.fold c.
Proof.
  destruct (ascii_lower_cases c) as [[Hc ->]|[_ ->]]; [|reflexivity].
  unfold re.fold, Py.ascii_lower.
  repeat match goal with
         | |- context [(?a =? ?b)%N] => destruct (N.eqb_spec a b); try lia
         | |- context [(?a <=? ?b)%N] => destruct (N.leb_spec a b); try lia
         end; cbn; try lia.
Qed.

Lemma atom_matches_lower (a : re.atom) (c : N) :
  re.atom_matches a (Py.ascii_lower c) = re.atom_matches a c.
Proof.
  assert (Hsame : forall p,
            re.same_char p (Py.ascii_lower c) = re.same_char p c).
  { intros p. unfold re.same_char. rewrite fold_lower. reflexivity. }
  destruct a as [p| | |cs|cs]; cbn [re.atom_matches].
  - apply Hsame.
  - destruct (ascii_lower_cases c) as [[Hc ->]|[_ ->]]; [|reflexivity].
    destruct (Py.isspace (c + 32)) eqn:H1; destruct (Py.isspace c) eqn:H2;
      try reflexivity;
      try (apply isspace_range in H1; lia); apply isspace_range in H2; lia.
  - destruct (ascii_lower_cases c) as [[Hc ->]|[_ ->]]; [|reflexivity].
    unfold NL. destruct (N.eqb_spec (c + 32) 10); destruct (N.eqb_spec c 10);
      try reflexivity; lia.
  - induction cs as [|p cs IH]; cbn; [reflexivity|].
    rewrite Hsame, IH. reflexivity.
  - apply (f_equal negb). induction cs as [|p cs IH]; cbn; [reflexivity|].
    rewrite Hsame, IH. reflexivity.
Qed.

Lemma repeat_then_lower (a : re.atom) (k k' : pystr -> bool) :
  (forall s, k' (map Py.ascii_lower s) = k s) ->
  forall s lo hi,
    re.repeat_then a k' lo hi (map Py.ascii_lower s)
    = re.repeat_then a k lo hi s.
Proof.
  intros Hk. induction s as [|c s IH]; intros lo hi.
  - destruct lo; cbn; [|reflexivity]. destruct (re.room hi); apply (Hk []).
  - destruct lo as [|lo]; cbn [map re.repeat_then];
      destruct (re.room hi) as [hi'|]; rewrite ?atom_matches_lower, ?IH;
      try reflexivity.
    + rewrite <- (Hk (c :: s)). reflexivity.
    + apply (Hk (c :: s)).
Qed.

Lemma atoms_here_lower (q : list re.atom) (s : pystr) :
  re.atoms_here q (map Py.ascii_lower s) = re.atoms_here q s.
Proof.
  revert s. induction q as [|a q IH]; intros [|c s]; cbn; try reflexivity.
  rewrite atom_matches_lower, IH. reflexivity.
Qed.

Lemma match_here_lower (p : re.pattern) (s : pystr) :
  re.match_here p (map Py.ascii_lower s) = re.match_here p s.
Proof.
  revert s. induction p as [|[a|a lo hi|q] p IH]; intros s;
    cbn [re.match_here].
  - reflexivity.
  - destruct s as [|c s]; cbn [map]; [reflexivity|].
    rewrite atom_matches_lower, IH. reflexivity.
  - apply repeat_then_lower. exact IH.
  - rewrite atoms_here_lower, IH. reflexivity.
Qed.

(** Matching ignores the case of ASCII letters in the line, for every
    pattern. *)
Lemma search_lower (p : re.pattern) (s : pystr) :
  re.search p (map Py.ascii_lower s) = re.search p s.
Proof.
  induction s as [|c s IH]; cbn [map re.search].
  - reflexivity.
  - rewrite <- IH. change (Py.ascii_lower c :: map Py.ascii_lower s)
      with (map Py.ascii_lower (c :: s)).
    rewrite match_here_lower. reflexivity.
Qed.

Lemma split_lower (s : pystr) :
  Py.split NL (map Py.ascii_lower s)
  = map (map Py.ascii_lower) (Py.split NL s).
Proof.
  induction s as [|c s IH]; cbn [map Py.split]; [reflexivity|].
  assert (Hnl : (Py.ascii_lower c =? NL)%N = (c =? NL)%N).
  { unfold NL.
    destruct (ascii_lower_cases c) as [[Hc ->]|[_ ->]]; [|reflexivity].
    destruct (N.eqb_spec (c + 32) 10); destruct (N.eqb_spec c 10);
      try reflexivity; lia. }
  rewrite Hnl, IH. destruct (c =? NL)%N; [reflexivity|].
  destruct (Py.split NL s); reflexivity.
Qed.

Lemma enumerate_map {A B} (h : A -> B) (l : list A) (start : nat) :
  Py.enumerate (map h l) start
  = map (fun e => (fst e, h (snd e))) (Py.enumerate l start).
Proof.
  revert start. induction l as [|x l IH]; intros start; cbn; [reflexivity|].
  rewrite IH. reflexivity.
Qed.

Lemma map_flat_map {A B C} (h : B -> C) (g : A -> list B) (l : list A) :
  map h (flat_map g l) = flat_map (fun a => map h (g a)) l.
Proof.
  induction l as [|a l IH]; cbn; [reflexivity|].
  rewrite map_app, IH. reflexivity.
Qed.

Lemma scan_lines_lower (file_path : Path) (lines : list pystr) :
  map summary (scan_lines file_path (map (map Py.ascii_lower) lines))
  = map summary (scan_lines file_path lines).
Proof.
  rewrite !scan_lines_by_rule, !map_flat_map.
  apply flat_map_ext. intros [[t p] d].
  rewrite enumerate_map, flat_map_of_map, !map_flat_map.
  apply flat_map_ext. intros [n text]. cbn [reports fst snd].
  rewrite search_lower. destruct (re.search p text); reflexivity.
Qed.

(** X3.  Detection is case-insensitive: two texts that differ only in the
    case of ASCII letters get the same findings, line by line and rule by
    rule (only the quoted code differs). *)
Theorem scan_file_ignores_case (file_path : Path) (content content' : pystr) :
  same_case content content' ->
  map summary (scan_file file_path (File (Some content)))
  = map summary (scan_file file_path (File (Some content'))).
Proof.
  unfold same_case, scan_file. cbn [read_text]. intros Hcase.
  rewrite <- (scan_lines_lower file_path (Py.split NL content)).
  rewrite <- (scan_lines_lower file_path (Py.split NL content')).
  rewrite <- !split_lower, Hcase. reflexivity.
Qed.

Lemma scan_file_ignores_case_witness :
  map summary (scan_file [py "a.py"] (File (Some (py "EVAL (x)"))))
  = map summary (scan_file [py "a.py"] (File (Some (py "eval (X)")))).
Proof.
  apply scan_file_ignores_case. vm_compute. reflexivity.
Defined.

(** *** Joined texts and longer lines *)

Lemma split_join (sep : N) (s1 s2 : pystr) :
  Py.split sep (s1 ++ sep :: s2) = Py.split sep s1 ++ Py.split sep s2.
Proof.
  induction s1 as [|c s1 IH]; cbn [app Py.split].
  - rewrite N.eqb_refl. reflexivity.
  - rewrite IH. destruct (c =? sep)%N; [reflexivity|].
    pose proof (split_nonempty sep s1) as Hne.
    destruct (Py.split sep s1); [congruence|reflexivity].
Qed.

Lemma reports_shift (file_path : Path) (r : rule) (k : nat)
    (lines : list pystr) (start : nat) :
  flat_map (reports file_path r) (Py.enumerate lines (k + start))
  = map (shift_lines k)
      (flat_map (reports file_path r) (Py.enumerate lines start)).
Proof.
  revert start. induction lines as [|text lines IH]; intros start;
    cbn [Py.enumerate flat_map]; [reflexivity|].
  rewrite map_app. replace (S (k + start)) with (k + S start)%nat by lia.
  rewrite IH. f_equal.
  destruct r as [[t p] d]. cbn [reports].
  destruct (re.search p text); reflexivity.
Qed.

Lemma flat_map_app_Permutation {A B} (g h : A -> list B) (l : list A) :
  Permutation (flat_map (fun a => g a ++ h a) l) (flat_map g l ++ flat_map h l).
Proof.
  induction l as [|a l IH]; cbn [flat_map]; [reflexivity|].
  rewrite IH. rewrite <- !app_assoc. apply Permutation_app_head.
  rewrite !app_assoc. apply Permutation_app_tail. apply Permutation_app_comm.
Qed.

Lemma scan_lines_app (file_path : Path) (lines1 lines2 : list pystr) :
  Permutation (scan_lines file_path (lines1 ++ lines2))
    (scan_lines file_path lines1
     ++ map (shift_lines (length lines1)) (scan_lines file_path lines2)).
Proof.
  rewrite !scan_lines_by_rule, map_flat_map.
  rewrite <- flat_map_app_Permutation.
  erewrite flat_map_ext; [reflexivity|]. intros r. cbn beta.
  rewrite enumerate_app, flat_map_app. f_equal.
  replace (1 + length lines1)%nat with (length lines1 + 1)%nat by lia.
  apply reports_shift.
Qed.

(** X4.  Scanning two texts joined by a newline finds what scanning each
    finds, the findings of the second moved down by the number of lines of
    the first; only the order differs, the rules being the outer loop. *)
Theorem scan_file_joined (file_path : Path) (content1 content2 : pystr) :
  Permutation
    (scan_file file_path (File (Some (content1 ++ [NL] ++ content2))))
    (scan_file file_path (File (Some content1))
     ++ map (shift_lines (length (Py.split NL content1)))
          (scan_file file_path (File (Some content2)))).
Proof.
  unfold scan_file. cbn [read_text app]. rewrite split_join.
  apply scan_lines_app.
Qed.

Lemma search_after (p : re.pattern) (before s : pystr) :
  re.search p s = true -> re.search p (before ++ s) = true.
Proof.
  intros Hs. induction before as [|c before IH]; [exact Hs|].
  cbn [app re.search]. rewrite IH. destruct (re.match_here p _); reflexivity.
Qed.

(** X5.  Text put before a line never hides a match: every rule a line
    triggers is still triggered by the longer line. *)
Theorem text_before_keeps_findings (before text : pystr) (r : rule) :
  In r (triggered text) -> In r (triggered (before ++ text)).
Proof.
  rewrite !In_triggered. intros [Hr Hs]. split; [exact Hr|].
  apply search_after. exact Hs.
Qed.

Lemma text_before_keeps_findings_witness :
  In (py "XSS", re.text "eval" ++ ws ++ re.text "(", py "Dangerous eval() usage")
    (triggered (py "    x = " ++ py "eval(y)")).
Proof.
  apply text_before_keeps_findings. vm_compute. left. reflexivity.
Defined.

End more_scanner.

(** ** The directory scan *)

Section more_walk.

Import vuln_scanner notions derived samples.

(** X6.  The count returned is the number of files opened; it is the cap
    or the number of scannable files the walk reaches, whichever is smaller,
    and never negative; a cap that is not negative is never exceeded. *)
Theorem scan_directory_counts (path : Path) (tree : node) (max_files : Z) :
  let st := scan_directory path tree max_files in
  files_scanned st = Z.of_nat (length (opened st))
  /\ files_scanned st
     = Z.max 0 (Z.min max_files
                  (Z.of_nat (length (reachable_files path tree))))
  /\ (0 <= max_files -> files_scanned st <= max_files).
Proof.
  intros st. subst st. rewrite scan_directory_take. unfold advance. cbn.
  rewrite length_map, length_take. repeat split; lia.
Qed.

(** X7.  With a cap of zero or less nothing is opened and nothing is
    found. *)
Theorem scan_directory_no_room (path : Path) (tree : node) (max_files : Z) :
  max_files <= 0 ->
  scan_directory path tree max_files
  = {| all_findings := []; files_scanned := 0; opened := [] |}.
Proof.
  intros H. rewrite scan_directory_take.
  replace (Z.to_nat max_files) with O by lia. reflexivity.
Qed.

Lemma scan_directory_no_room_witness :
  scan_directory [py "proj"] project 0
  = {| all_findings := []; files_scanned := 0; opened := [] |}.
Proof. apply scan_directory_no_room. lia. Defined.

(** X8.  When the cap is not reached, every scannable file the walk
    reaches is scanned, once, in traversal order, and the findings are
    theirs in that order. *)
Theorem scan_directory_below_cap (path : Path) (tree : node) (max_files : Z) :
  Z.of_nat (length (reachable_files path tree)) <= max_files ->
  let st := scan_directory path tree max_files in
  files_scanned st = Z.of_nat (length (reachable_files path tree))
  /\ opened st = map fst (reachable_files path tree)
  /\ all_findings st
     = flat_map (fun e => scan_file (fst e) (snd e))
         (reachable_files path tree).
Proof.
  intros H st. subst st. rewrite scan_directory_take.
  rewrite take_ge by lia. unfold advance. cbn. auto.
Qed.

Lemma scan_directory_below_cap_witness :
  let st := scan_directory [py "proj"] project 1000 in
  files_scanned st = 2
  /\ opened st = [[py "proj"; py "a.py"]; [py "proj"; py "src"; py "d.js"]]
  /\ all_findings st
     = scan_file [py "proj"; py "a.py"] eval_file
       ++ scan_file [py "proj"; py "src"; py "d.js"] eval_file.
Proof.
  pose proof (scan_directory_below_cap [py "proj"] project 1000) as H.
  cbv zeta in H.
  replace (reachable_files [py "proj"] project)
    with [([py "proj"; py "a.py"], eval_file);
          ([py "proj"; py "src"; py "d.js"], eval_file)] in H
    by (vm_compute; reflexivity).
  cbn [map flat_map fst snd length] in H. rewrite app_nil_r in H.
  apply H. vm_compute. discriminate.
Defined.

(** X9.  Raising the cap only adds to a scan: the files opened and the
    findings under a smaller cap are an initial part of those under a larger
    one. *)
Theorem scan_directory_monotone (path : Path) (tree : node) (n m : Z) :
  n <= m ->
  opened (scan_directory path tree n)
    `prefix_of` opened (scan_directory path tree m)
  /\ all_findings (scan_directory path tree n)
     `prefix_of` all_findings (scan_directory path tree m)
  /\ files_scanned (scan_directory path tree n)
     <= files_scanned (scan_directory path tree m).
Proof.
  intros H. rewrite !scan_directory_take. unfold advance. cbn.
  set (R := reachable_files path tree).
  assert (Htake : take (Z.to_nat m) R
                  = take (Z.to_nat n) R
                    ++ drop (Z.to_nat n) (take (Z.to_nat m) R)).
  { rewrite <- (take_drop (Z.to_nat n) (take (Z.to_nat m) R)) at 1.
    rewrite take_take. f_equal. f_equal. lia. }
  rewrite Htake. split; [|split].
  - rewrite map_app. eexists. reflexivity.
  - rewrite flat_map_app. eexists. reflexivity.
  - rewrite length_app. lia.
Qed.

Lemma scan_directory_monotone_witness :
  opened (scan_directory [py "proj"] project 1)
    `prefix_of` opened (scan_directory [py "proj"] project 2)
  /\ all_findings (scan_directory [py "proj"] project 1)
     `prefix_of` all_findings (scan_directory [py "proj"] project 2)
  /\ files_scanned (scan_directory [py "proj"] project 1)
     <= files_scanned (scan_directory [py "proj"] project 2).
Proof. apply scan_directory_monotone. lia. Defined.

Lemma In_reachable (path : Path) (tree : node) (e : Path * node) :
  In e (reachable_files path tree) ->
  scannable (fst e) = true
  /\ exists (ds : list pystr) (name : pystr),
       fst e = path ++ ds ++ [name]
       /\ Forall (fun d => keep_dir d = true) ds.
Proof.
  unfold reachable_files, files_in, scannable_in. intros He.
  apply in_flat_map in He as ([[root dirs] files] & Ht & He).
  apply filter_In in He as [He Hs].
  apply in_map_iff in He as ([name n] & <- & He). cbn [fst snd] in *.
  split; [exact Hs|].
  pose proof (os_walk_roots _ _ _ _ Ht) as (ds & Hroot & Hds).
  cbn [fst] in Hroot. subst root.
  exists ds, name. rewrite app_assoc. auto.
Qed.

(** X10.  Where the results come from: every file opened has a scannable
    extension and lies below the root through directories that are not
    skipped, and every finding comes from a file that was opened and read, by
    the scan of that file. *)
Theorem scan_directory_provenance (path : Path) (tree : node)
    (max_files : Z) :
  let st := scan_directory path tree max_files in
  (forall p, In p (opened st) ->
     scannable p = true
     /\ exists (ds : list pystr) (name : pystr),
          p = path ++ ds ++ [name] /\ Forall (fun d => d ∉ SKIP_DIRS) ds)
  /\ (forall f, In f (all_findings st) ->
        exists p content,
          In p (opened st)
          /\ In (p, File (Some content)) (reachable_files path tree)
          /\ In f (scan_file p (File (Some content)))).
Proof.
  intros st. subst st. rewrite scan_directory_take. unfold advance. cbn.
  set (k := Z.to_nat max_files). split.
  - intros p Hp. apply in_map_iff in Hp as (e & <- & He).
    apply list_elem_of_In, (subseteq_take _ _ _), list_elem_of_In in He.
    apply In_reachable in He as (Hs & ds & name & Hp & Hds).
    split; [exact Hs|]. exists ds, name. split; [exact Hp|].
    eapply Forall_impl; [exact Hds|]. intros d Hd Hin. unfold keep_dir in Hd.
    rewrite bool_decide_eq_true_2 in Hd by exact Hin. discriminate.
  - intros f Hf. apply in_flat_map in Hf as ([p n] & He & Hf).
    cbn [fst snd] in Hf.
    destruct n as [[content|]|es]; try (destruct Hf).
    exists p, content. split; [|split].
    + apply in_map_iff. exists (p, File (Some content)). auto.
    + apply list_elem_of_In, (subseteq_take _ _ _), list_elem_of_In in He.
      exact He.
    + exact Hf.
Qed.

(** X11.  A file that cannot be read yields no finding but is counted as
    scanned all the same. *)
Theorem unreadable_files_are_counted (path : Path) (tree : node)
    (max_files : Z) :
  Forall (fun e => read_text (snd e) = None) (reachable_files path tree) ->
  Z.of_nat (length (reachable_files path tree)) <= max_files ->
  let st := scan_directory path tree max_files in
  all_findings st = []
  /\ files_scanned st = Z.of_nat (length (reachable_files path tree)).
Proof.
  intros Hall Hcap st. subst st. rewrite scan_directory_take.
  rewrite take_ge by lia. unfold advance. cbn. split; [|reflexivity].
  clear Hcap. induction Hall as [|e l He _ IH]; cbn [flat_map]; [reflexivity|].
  rewrite IH. unfold scan_file. rewrite He. reflexivity.
Qed.

Lemma unreadable_files_are_counted_witness :
  let st := scan_directory [py "proj"]
              (Dir [(py "a.py", File None); (py "b.js", File None)]) 10 in
  all_findings st = [] /\ files_scanned st = 2.
Proof.
  apply (unreadable_files_are_counted [py "proj"]
           (Dir [(py "a.py", File None); (py "b.js", File None)]) 10).
  - vm_compute. repeat constructor.
  - vm_compute. discriminate.
Defined.

(** *** Pruning *)

Lemma prune_Dir (entries : list (pystr * node)) :
  prune (Dir entries)
  = Dir (flat_map (fun '(name, child) =>
                     if is_dir child && negb (keep_dir name) then []
                     else [(name, prune child)]) entries).
Proof.
  cbn [prune]. f_equal.
  induction entries as [|[name child] es IH]; [reflexivity|].
  cbn [flat_map]. rewrite <- IH.
  destruct (is_dir child && negb (keep_dir name)); reflexivity.
Qed.

Lemma is_dir_prune (n : node) : is_dir (prune n) = is_dir n.
Proof. destruct n; reflexivity. Qed.

(** The files of a directory are untouched by pruning. *)
Lemma files_of_pruned (entries : list (pystr * node)) :
  List.filter (fun e => negb (is_dir (snd e)))
    (flat_map (fun '(name, child) =>
                 if is_dir child && negb (keep_dir name) then []
                 else [(name, prune child)]) entries)
  = List.filter (fun e => negb (is_dir (snd e))) entries.
Proof.
  induction entries as [|[name child] es IH]; [reflexivity|].
  cbn [flat_map]. rewrite List.filter_app, IH. cbn [List.filter snd].
  destruct child as [c|sub]; cbn [is_dir andb negb List.filter snd app];
    [reflexivity|].
  destruct (keep_dir name); cbn [negb List.filter snd app]; [|reflexivity].
  rewrite is_dir_prune. reflexivity.
Qed.

Lemma files_in_prune (n : node) :
  forall top : Path,
    files_in (fun _ => true) top (prune n) = files_in keep_dir top n
    /\ files_in keep_dir top (prune n) = files_in keep_dir top n.
Proof.
  induction n as [c|entries IH] using node_ind_entries; intros top.
  - split; reflexivity.
  - rewrite prune_Dir. unfold files_in. rewrite !os_walk_Dir.
    cbn [flat_map]. rewrite files_of_pruned.
    assert (Hsub : forall keep : pystr -> bool,
              (forall d, keep_dir d = true -> keep d = true) ->
              (forall top' n', In n' (map snd entries) ->
                 files_in keep top' (prune n') = files_in keep_dir top' n') ->
              flat_map (fun '(root, _, files) => scannable_in root files)
                (flat_map (fun '(name, child) =>
                             if is_dir child && keep name
                             then os_walk keep (top ++ [name]) child else [])
                   (flat_map (fun '(name, child) =>
                                if is_dir child && negb (keep_dir name)
                                then [] else [(name, prune child)]) entries))
              = flat_map (fun '(root, _, files) => scannable_in root files)
                  (flat_map (fun '(name, child) =>
                               if is_dir child && keep_dir name
                               then os_walk keep_dir (top ++ [name]) child
                               else [])
                     entries)).
    { intros keep Hkeep Hfiles.
      induction entries as [|[name child] es IHes]; [reflexivity|].
      cbn [flat_map]. rewrite !flat_map_app.
      f_equal.
      - destruct (is_dir child) eqn:Hd; cbn [andb];
          [|cbn [flat_map app]; rewrite is_dir_prune, Hd; reflexivity].
        destruct (keep_dir name) eqn:Hk; cbn [negb flat_map app];
          [|reflexivity].
        rewrite is_dir_prune, Hd, (Hkeep _ Hk). cbn [andb].
        rewrite app_nil_r.
        apply (Hfiles (top ++ [name]) child). left. reflexivity.
      - apply IHes.
        + apply Forall_cons in IH as [_ IH]. exact IH.
        + intros top' n' Hn'. apply Hfiles. right. exact Hn'. }
    rewrite Forall_forall in IH.
    split; f_equal; apply Hsub; auto.
    + intros top' n' Hn'. apply in_map_iff in Hn' as (e & <- & He).
      apply (IH e (proj2 (list_elem_of_In _ _) He) top').
    + intros top' n' Hn'. apply in_map_iff in Hn' as (e & <- & He).
      apply (IH e (proj2 (list_elem_of_In _ _) He) top').
Qed.

(** X12.  A scan sees a tree as if every skipped directory below the root
    had been deleted: the files it can reach are all the scannable files of
    the pruned tree, and scanning the pruned tree gives the same state, so
    nothing stored under a skipped directory bears on the result. *)
Theorem scan_directory_prune (path : Path) (tree : node) (max_files : Z) :
  reachable_files path tree = all_files path (prune tree)
  /\ scan_directory path (prune tree) max_files
     = scan_directory path tree max_files.
Proof.
  destruct (files_in_prune tree path) as [Hall Hkeep]. split.
  - symmetry. exact Hall.
  - rewrite !scan_directory_take. unfold reachable_files. rewrite Hkeep.
    reflexivity.
Qed.

(** ** The report *)

Lemma severity_partition (findings : list Finding) :
  (length (of_severity HIGH findings) + length (of_severity MEDIUM findings)
   + length (of_severity LOW findings))%nat = length findings.
Proof.
  unfold of_severity.
  induction findings as [|f l IH]; cbn [List.filter length]; [reflexivity|].
  repeat case_bool_decide; cbn [length]; try lia;
    destruct (severity f); congruence.
Qed.

(** X13.  The summary of a report adds up: the HIGH, MEDIUM and LOW counts
    it prints sum to the number of issues it prints. *)
Theorem format_results_counts (findings : list Finding) (files_scanned : Z) :
  findings <> [] ->
  let count sev :=
    Py.str_of_int (Z.of_nat (length (of_severity sev findings))) in
  let bar := Py.times (ch "=") 70 in
  (length (of_severity HIGH findings) + length (of_severity MEDIUM findings)
   + length (of_severity LOW findings))%nat = length findings
  /\ exists sections : pystr,
       format_results findings files_scanned
       = [NL] ++ bar ++ [NL]
         ++ py "Vulnerability Scan Results" ++ [NL]
         ++ bar ++ [NL]
         ++ py "Files Scanned: " ++ Py.str_of_int files_scanned ++ [NL]
         ++ py "Issues Found: "
         ++ Py.str_of_int (Z.of_nat (length findings)) ++ [NL]
         ++ py "  " ++ [BULLET] ++ py " HIGH:   " ++ count HIGH ++ [NL]
         ++ py "  " ++ [BULLET] ++ py " MEDIUM: " ++ count MEDIUM ++ [NL]
         ++ py "  " ++ [BULLET] ++ py " LOW:    " ++ count LOW ++ [NL]
         ++ bar ++ [NL] ++ sections.
Proof.
  intros Hne count bar. split; [apply severity_partition|].
  destruct findings as [|f l]; [congruence|].
  eexists. unfold format_results. reflexivity.
Qed.

Lemma format_results_counts_witness :
  let findings := scan_file [py "db.py"] (File (Some format_concat_line)) in
  (length (of_severity HIGH findings) + length (of_severity MEDIUM findings)
   + length (of_severity LOW findings))%nat = 2%nat
  /\ exists sections : pystr,
       format_results findings 1
       = [NL] ++ Py.times (ch "=") 70 ++ [NL]
         ++ py "Vulnerability Scan Results" ++ [NL]
         ++ Py.times (ch "=") 70 ++ [NL]
         ++ py "Files Scanned: 1" ++ [NL]
         ++ py "Issues Found: 2" ++ [NL]
         ++ py "  " ++ [BULLET] ++ py " HIGH:   2" ++ [NL]
         ++ py "  " ++ [BULLET] ++ py " MEDIUM: 0" ++ [NL]
         ++ py "  " ++ [BULLET] ++ py " LOW:    0" ++ [NL]
         ++ Py.times (ch "=") 70 ++ [NL] ++ sections.
Proof.
  apply (format_results_counts
           (scan_file [py "db.py"] (File (Some format_concat_line))) 1).
  vm_compute. discriminate.
Defined.

(** X14.  A report depends on the findings only through the findings of
    each severity, in their order: lists that agree severity by severity,
    however their severities are interleaved, give the same report. *)
Theorem format_results_by_severity (findings findings' : list Finding)
    (files_scanned : Z) :
  (forall sev, of_severity sev findings = of_severity sev findings') ->
  format_results findings files_scanned
  = format_results findings' files_scanned.
Proof.
  intros Hsame.
  assert (Hlen : length findings = length findings').
  { rewrite <- (severity_partition findings), <- (severity_partition findings').
    rewrite !Hsame. reflexivity. }
  destruct findings as [|f l]; destruct findings' as [|f' l'];
    try discriminate; [reflexivity|].
  unfold format_results. cbn [flat_map]. unfold format_section.
  repeat match goal with
         | |- context [List.filter
                         (fun x => bool_decide (severity x = ?s)) ?l] =>
             change (List.filter (fun x => bool_decide (severity x = s)) l)
               with (of_severity s l)
         end.
  rewrite Hlen, !Hsame. reflexivity.
Qed.

Lemma format_results_by_severity_witness :
  let low := {| file := py "/a.py"; line := 3; type := py "Hardcoded Secrets";
                description := py "Hardcoded secret"; code := py "secret='x'";
                severity := LOW |} in
  let high := {| file := py "/a.py"; line := 7; type := py "XSS";
                 description := py "Dangerous eval() usage";
                 code := py "eval(x)"; severity := HIGH |} in
  format_results [low; high] 1 = format_results [high; low] 1.
Proof.
  apply format_results_by_severity. intros []; reflexivity.
Defined.

(** *** The entry point *)

Lemma opened_scannable (top : Path) (tree : node) (max_files : Z) (p : Path) :
  In p (opened (scan_directory top tree max_files)) -> scannable p = true.
Proof.
  rewrite scan_directory_take. unfold advance. cbn. intros Hp.
  apply in_map_iff in Hp as (e & <- & He).
  apply list_elem_of_In, (subseteq_take _ _ _), list_elem_of_In in He.
  apply In_reachable in He as [Hs _]. exact Hs.
Qed.

(** X15.  Scanning a directory with [max_files] at zero or below returns
    the no-vulnerabilities report with a count of 0, whatever the directory
    holds, and opens no file: the call prints its progress line and nothing
    else happens. *)
Theorem run_plugin_directory_no_room (fs : filesystem) (stdout : console)
    (scan_path : option pystr) (max_files : Z) (path : Path) (w : world) :
  resolve fs (default (py ".") scan_path) = Return path ->
  exists_ fs path = Return true ->
  is_file fs path = Return false ->
  stdout (printed w) (progress path) = None ->
  max_files <= 0 ->
  run_plugin fs stdout
    (Some {| arg_path := scan_path; arg_max_files := Some max_files |}) w
  = (Return ([NL] ++ py "[" ++ [CHECK_MARK]
             ++ py "] No vulnerabilities found (0 files scanned)" ++ [NL]),
     and_printed w [progress path]).
Proof.
  intros Hres Hex Hfile Hout Hcap. unfold run_plugin, io_bind, lift, print.
  cbn [default from_option id arg_path arg_max_files].
  rewrite Hres, Hex. cbn [negb]. fold (progress path). rewrite Hout, Hfile.
  unfold call_scan_directory, io_ret. rewrite scan_directory_take.
  replace (Z.to_nat max_files) with O by lia.
  unfold and_printed. cbn. rewrite app_nil_r. reflexivity.
Qed.

Lemma run_plugin_directory_no_room_witness :
  run_plugin (posix [] disk) utf8_console
    (Some {| arg_path := Some (py "proj"); arg_max_files := Some 0 |}) nothing
  = (Return ([NL] ++ py "[" ++ [CHECK_MARK]
             ++ py "] No vulnerabilities found (0 files scanned)" ++ [NL]),
     {| printed := [py "[*] Scanning: /proj"]; files_opened := [] |}).
Proof.
  apply (run_plugin_directory_no_room (posix [] disk) utf8_console
           (Some (py "proj")) 0 [py "proj"] nothing);
    [reflexivity|reflexivity|reflexivity|reflexivity|lia].
Defined.

(** C7, as stated, fails.  [/tmp] is an empty directory, so nothing exists
    under the name of 256 letters in it; the look-up of that name fails with
    ENAMETOOLONG, which [path.exists()] raises instead of answering [False],
    and the entry point raises it: no path-not-found message is returned. *)
Lemma run_plugin_long_name_raises :
  stat disk [py "tmp"] = Found (Dir [])
  /\ resolve (posix [] disk) long_path
     = Return [py "tmp"; Py.times (ch "a") 256]
  /\ run_plugin (posix [] disk) utf8_console
       (Some {| arg_path := Some long_path; arg_max_files := None |}) nothing
     = (Raise {| class := OtherException;
                 message := py "[Errno 36] File name too long: '/tmp/"
                            ++ Py.times (ch "a") 256 ++ py "'" |},
        nothing).
Proof. vm_compute. auto. Qed.

(** C7, amended.  Every way through the entry point.  An exception raised
    by [resolve], [exists], the [print] of the progress line or [is_file] is
    raised to the caller, and no file has been opened.  When the path
    resolves and [exists] answers [False], the path-not-found message with
    the path as given is returned, and nothing has been printed or opened.
    When the path resolves, [exists] and [is_file] answer [True] and the
    progress line is printed, exactly the file at the path is opened,
    whatever its extension: the report is that of the findings in this file,
    each of which names it, with a count of 1, which the report shows in its
    first lines; a file whose extension is not in the allow-list is scanned
    like any other, although no directory scan ever opens a file with that
    extension. *)
Theorem run_plugin_file_or_missing_root (fs : filesystem) (stdout : console)
    (args : option Args) (w : world) :
  let scan_path := default (py ".") (arg_path (default no_args args)) in
  let result := run_plugin fs stdout args w in
  (forall e, resolve fs scan_path = Raise e -> result = (Raise e, w))
  /\ (forall path, resolve fs scan_path = Return path ->
      (forall e, exists_ fs path = Raise e -> result = (Raise e, w))
      /\ (exists_ fs path = Return false ->
          result = (Return (py "[!] Path not found: " ++ scan_path), w))
      /\ (exists_ fs path = Return true ->
          (forall e, stdout (printed w) (progress path) = Some e ->
             result = (Raise e, w))
          /\ (stdout (printed w) (progress path) = None ->
              (forall e, is_file fs path = Raise e ->
                 result = (Raise e, and_printed w [progress path]))
              /\ (is_file fs path = Return true ->
                  let findings := scan_file path (node_at fs path) in
                  exists report : pystr,
                    result
                    = (Return report,
                       and_opened (and_printed w [progress path]) [path])
                    /\ report = format_results findings 1
                    /\ Forall (fun f => file f = Path_str path) findings
                    /\ (findings = []
                        /\ report
                           = [NL] ++ py "[" ++ [CHECK_MARK]
                             ++ py "] No vulnerabilities found (1 files scanned)"
                             ++ [NL]
                        \/ findings <> []
                           /\ exists rest : pystr,
                                report
                                = [NL] ++ Py.times (ch "=") 70 ++ [NL]
                                  ++ py "Vulnerability Scan Results" ++ [NL]
                                  ++ Py.times (ch "=") 70 ++ [NL]
                                  ++ py "Files Scanned: 1" ++ [NL] ++ rest)
                    /\ (scannable path = false ->
                        forall top tree max_files,
                          ~ In path
                              (opened (scan_directory top tree max_files))))))).
Proof.
  intros scan_path result. subst result.
  unfold run_plugin, io_bind, lift, print. fold scan_path.
  split; [intros e ->; reflexivity|].
  intros path ->. split; [intros e ->; reflexivity|].
  split; [intros ->; reflexivity|].
  intros ->. cbn [negb]. fold (progress path).
  split; [intros e ->; reflexivity|].
  intros ->. split; [intros e ->; reflexivity|].
  intros ->. set (findings := scan_file path (node_at fs path)).
  exists (format_results findings 1).
  split; [reflexivity|]. split; [reflexivity|]. split; [|split].
  - apply List.Forall_forall. intros f Hf. subst findings.
    unfold scan_file in Hf. destruct (read_text _); [|destruct Hf].
    apply In_scan_lines in Hf
      as (t & ps & q & d & n & text & _ & _ & _ & _ & ->).
    reflexivity.
  - destruct (format_results_shows_count findings 1)
      as [[Hnone Hreport]|[Hsome [rest Hreport]]]; [left|right].
    + split; [exact Hnone|exact Hreport].
    + split; [exact Hsome|]. exists rest. exact Hreport.
  - intros Hext top tree max_files Hin.
    apply opened_scannable in Hin. congruence.
Qed.

Lemma run_plugin_file_or_missing_root_witness :
  run_plugin (posix [] disk) utf8_console
    (Some {| arg_path := Some (py "notes.txt"); arg_max_files := None |})
    nothing
  = (Return (format_results (scan_file [py "notes.txt"] eval_file) 1),
     {| printed := [py "[*] Scanning: /notes.txt"];
        files_opened := [[py "notes.txt"]] |})
  /\ scannable [py "notes.txt"] = false
  /\ run_plugin (posix [] disk) utf8_console
       (Some {| arg_path := Some (py "gone"); arg_max_files := None |}) nothing
     = (Return (py "[!] Path not found: gone"), nothing)
  /\ run_plugin (posix [] disk) utf8_console
       (Some {| arg_path := Some (py "a" ++ [0%N] ++ py "b");
                arg_max_files := None |}) nothing
     = (Raise {| class := OtherException; message := py "embedded null byte" |},
        nothing).
Proof.
  split; [|split; [reflexivity|split]].
  - pose proof (run_plugin_file_or_missing_root (posix [] disk) utf8_console
                  (Some {| arg_path := Some (py "notes.txt");
                           arg_max_files := None |}) nothing) as H.
    cbv zeta in H. destruct H as [_ H].
    destruct (H [py "notes.txt"] eq_refl) as (_ & _ & Hexists).
    destruct (Hexists eq_refl) as [_ Hprinted].
    destruct (Hprinted eq_refl) as [_ Hfile].
    destruct (Hfile eq_refl) as (report & Hrun & Hreport & _).
    rewrite Hrun, Hreport. reflexivity.
  - pose proof (run_plugin_file_or_missing_root (posix [] disk) utf8_console
                  (Some {| arg_path := Some (py "gone");
                           arg_max_files := None |}) nothing) as H.
    cbv zeta in H. destruct H as [_ H].
    destruct (H [py "gone"] eq_refl) as (_ & Hmissing & _).
    apply Hmissing. reflexivity.
  - apply (proj1 (run_plugin_file_or_missing_root (posix [] disk) utf8_console
                    (Some {| arg_path := Some (py "a" ++ [0%N] ++ py "b");
                             arg_max_files := None |}) nothing)).
    reflexivity.
Defined.

(** X21.  A root that exists and is neither a regular file nor a
    directory (a device, a pipe, a socket) goes the way of a directory: there
    is nothing to walk, so the report says that no file was scanned, whatever
    the cap, and nothing is opened. *)
Theorem run_plugin_special_root (fs : filesystem) (stdout : console)
    (args : option Args) (path : Path) (contents : option pystr) (w : world) :
  resolve fs (default (py ".") (arg_path (default no_args args)))
  = Return path ->
  exists_ fs path = Return true ->
  is_file fs path = Return false ->
  node_at fs path = File contents ->
  stdout (printed w) (progress path) = None ->
  run_plugin fs stdout args w
  = (Return ([NL] ++ py "[" ++ [CHECK_MARK]
             ++ py "] No vulnerabilities found (0 files scanned)" ++ [NL]),
     and_printed w [progress path]).
Proof.
  intros Hres Hex Hfile Hnode Hout. unfold run_plugin, io_bind, lift, print.
  rewrite Hres, Hex. cbn [negb]. fold (progress path). rewrite Hout, Hfile.
  unfold call_scan_directory, io_ret. rewrite Hnode.
  unfold and_printed. cbn. rewrite app_nil_r. reflexivity.
Qed.

Lemma run_plugin_special_root_witness :
  run_plugin (with_device (posix [] disk) [py "dev"; py "null"]) utf8_console
    (Some {| arg_path := Some (py "/dev/null"); arg_max_files := None |})
    nothing
  = (Return ([NL] ++ py "[" ++ [CHECK_MARK]
             ++ py "] No vulnerabilities found (0 files scanned)" ++ [NL]),
     {| printed := [py "[*] Scanning: /dev/null"]; files_opened := [] |}).
Proof.
  apply (run_plugin_special_root
           (with_device (posix [] disk) [py "dev"; py "null"]) utf8_console
           (Some {| arg_path := Some (py "/dev/null"); arg_max_files := None |})
           [py "dev"; py "null"] (Some []) nothing); reflexivity.
Defined.

End more_walk.

(** ** Dispatch, the menu and the configuration *)

Section more_dispatch.

Import plugin_manager derived samples.

Lemma resolve_task (task : pystr) :
  known_task task
  /\ PLUGIN_REGISTRY !! default task (ALIASES !! task)
     = Some (py "plugins", py "vuln_scanner")
  \/ ~ known_task task
     /\ PLUGIN_REGISTRY !! default task (ALIASES !! task) = None.
Proof.
  unfold known_task, ALIASES, PLUGIN_REGISTRY.
  destruct (decide (task = py "scan")) as [->|H1];
    [left; split; [tauto|vm_compute; reflexivity]|].
  destruct (decide (task = py "vulnerability_scan")) as [->|H2];
    [left; split; [tauto|vm_compute; reflexivity]|].
  destruct (decide (task = py "vuln_scan")) as [->|H3];
    [left; split; [tauto|vm_compute; reflexivity]|].
  right. split; [tauto|].
  assert (Ha : ({[ py "scan" := py "vuln_scan";
                   py "vulnerability_scan" := py "vuln_scan" ]}
                : gmap pystr pystr) !! task = None).
  { rewrite lookup_insert_ne by congruence.
    apply lookup_singleton_ne. congruence. }
  rewrite Ha. cbn [default from_option id].
  apply lookup_singleton_ne. congruence.
Qed.

(** X16.  Exactly three task names are dispatched, "vuln_scan" and its two
    aliases, all to the same effect; any other name, whatever its case or
    spelling, gives the unknown-plugin string with the name as it was
    given. *)
Theorem dispatch_names (A : Type) (import_module : importer A) (task : pystr)
    (args : A) :
  known_task task
  /\ run_plugin import_module task args
     = run_plugin import_module (py "vuln_scan") args
  \/ ~ known_task task
     /\ run_plugin import_module task args
        = Return (Str (py "[!] Unknown plugin: " ++ task)).
Proof.
  destruct (resolve_task task) as [[Hk Hreg]|[Hk Hreg]]; [left|right];
    (split; [exact Hk|]); unfold run_plugin; rewrite Hreg; [|reflexivity].
  destruct (resolve_task (py "vuln_scan")) as [[_ ->]|[Hn _]]; [reflexivity|].
  exfalso. apply Hn. left. reflexivity.
Qed.

(** X17.  What a known task name gives, in full.  The dispatcher imports
    [plugins.vuln_scanner]; it calls [run_plugin] when the module has one and
    [run] only when it has not; what the entry point returns is passed on
    unchanged, string or not, and an [Exception] it raises comes back as the
    execution-failed string with the exception's text.  A failed import comes
    back as the plugin-not-found string when it is an [ImportError], and like
    any other exception otherwise. *)
Theorem dispatch_outcome (A : Type) (import_module : importer A)
    (task : pystr) (args : A) :
  known_task task ->
  run_plugin import_module task args
  = match import_module (py "plugins.vuln_scanner") with
    | Return m =>
        match attr_run_plugin m, attr_run m with
        | Some run_plugin, _ => shielded (run_plugin args)
        | None, Some run => shielded (run args)
        | None, None =>
            Return (Str (py "[!] Plugin vuln_scanner has no run() or run_plugin() function"))
        end
    | Raise e =>
        if is_ImportError (class e)
        then Return (Str (py "[!] Plugin execution failed: Plugin not found: plugins.vuln_scanner"
                          ++ [NL] ++ py "Error: " ++ message e))
        else shielded (Raise e)
    end.
Proof.
  intros Hk. destruct (resolve_task task) as [[_ Hreg]|[Hn _]]; [|tauto].
  unfold run_plugin. rewrite Hreg. unfold _load_plugin_module.
  change (py "plugins" ++ py "." ++ py "vuln_scanner")
    with (py "plugins.vuln_scanner").
  change (py "plugins." ++ py "vuln_scanner") with (py "plugins.vuln_scanner").
  destruct (import_module (py "plugins.vuln_scanner")) as [m|e];
    cbn [try_except bind].
  - destruct (attr_run_plugin m) as [f|]; [|destruct (attr_run m) as [g|]];
      reflexivity.
  - destruct (is_ImportError (class e)) eqn:Hi;
      cbn [try_except bind class message is_Exception]; [reflexivity|].
    unfold shielded. destruct (is_Exception (class e)); reflexivity.
Qed.

Lemma dispatch_outcome_witness :
  run_plugin (shipped (posix [] disk) utf8_console) (py "vulnerability_scan")
    (Some {| vuln_scanner.arg_path := Some (py "gone");
             vuln_scanner.arg_max_files := None |})
  = Return (Str (py "[!] Path not found: gone")).
Proof.
  rewrite (dispatch_outcome _ (shipped (posix [] disk) utf8_console)
             (py "vulnerability_scan")
             (Some {| vuln_scanner.arg_path := Some (py "gone");
                      vuln_scanner.arg_max_files := None |}))
    by (right; right; reflexivity).
  vm_compute. reflexivity.
Defined.

Lemma run_plugin_raises_no_Exception {A} (import_module : importer A)
    (task : pystr) (args : A) (e : exception) :
  run_plugin import_module task args = Raise e ->
  is_Exception (class e) = false.
Proof.
  unfold run_plugin.
  destruct (PLUGIN_REGISTRY !! _) as [[category module_name]|];
    [|discriminate].
  unfold try_except.
  destruct (bind _ _) as [v|e']; [discriminate|].
  destruct (is_Exception (class e')) eqn:He'; [discriminate|].
  intros [= <-]. exact He'.
Qed.

(** With the modules the repository ships, a known name runs the
    scanner's entry point; its report is handed through unchanged, and what
    it raises is treated like the exception of any entry point. *)
Lemma dispatch_runs_scanner (fs : filesystem) (stdout : console)
    (args : option vuln_scanner.Args) :
  run_plugin (shipped fs stdout) (py "vuln_scan") args
  = shielded (as_value (fst (vuln_scanner.run_plugin fs stdout args nothing))).
Proof.
  destruct (resolve_task (py "vuln_scan")) as [[_ Hreg]|[Hn _]].
  - unfold run_plugin. rewrite Hreg. reflexivity.
  - exfalso. apply Hn. left. reflexivity.
Qed.

(** What the entry point of the scanner returns is never the empty
    string. *)
Lemma report_not_empty (fs : filesystem) (stdout : console)
    (args : option vuln_scanner.Args) (w : world) :
  fst (vuln_scanner.run_plugin fs stdout args w) <> Return [].
Proof.
  unfold vuln_scanner.run_plugin, io_bind, lift, print, io_ret.
  destruct (resolve fs _) as [path|e]; [|discriminate].
  destruct (exists_ fs path) as [[|]|e]; cbn [negb fst]; try discriminate.
  destruct (stdout _ _) as [e|]; [discriminate|].
  destruct (is_file fs path) as [[|]|e]; try discriminate;
    unfold vuln_scanner.call_scan_file, vuln_scanner.call_scan_directory;
    cbn [fst snd]; unfold vuln_scanner.format_results.
  - destruct (vuln_scanner.scan_file _ _); discriminate.
  - destruct (vuln_scanner.all_findings _); discriminate.
Qed.

(** The menu up to its [try]: with an answer to its question and a console
    that takes the two lines of the banner, it has printed them. *)
Lemma menu_after_banner (stdout : console)
    (object_truth : N -> outcome bool) (object_str : N -> outcome pystr)
    (import_module : importer (option vuln_scanner.Args))
    (answer : option pystr) (w : world) :
  stdout (printed w) ([NL] ++ py "=== Vulnerability Scanner ===") = None ->
  stdout (printed w ++ [[NL] ++ py "=== Vulnerability Scanner ==="])
    ([NL] ++ py "[*] Scanning: " ++ asked_path answer) = None ->
  main.run_vulnerability_scan object_truth object_str stdout (Return answer)
    import_module w
  = io_try
      (let* result :=
         lift (run_plugin import_module (py "vuln_scan") (scan_args answer)) in
       let* shown := lift (main.truth object_truth result) in
       if shown then
         let* text := lift (main.to_str object_str result) in
         print stdout ([NL] ++ text)
       else io_ret tt)
      is_Exception
      (fun e => print stdout ([NL] ++ py "[!] Scan error: " ++ message e))
      (and_printed w (scan_banner answer)).
Proof.
  intros H1 H2. unfold main.run_vulnerability_scan.
  unfold io_bind at 1. unfold print at 1. rewrite H1.
  unfold io_bind at 1. unfold lift at 1.
  unfold io_bind at 1. unfold print at 1. cbn [printed files_opened].
  match goal with
  | |- context [stdout ?history ?text] =>
      replace (stdout history text) with (@None exception)
        by (symmetry; exact H2)
  end.
  unfold and_printed, scan_banner. rewrite <- app_assoc. reflexivity.
Qed.

(** X18.  The [except] clause of the menu never handles a failure of the
    plugin.  Once the banner is printed: an exception the dispatch raises is
    not an [Exception] and leaves the menu, nothing more being printed; a
    result that is false as a condition prints nothing; a result that is true
    is printed; and the scan-error line is printed exactly when testing the
    result as a condition, formatting it or printing it raises an
    [Exception], with the text of that exception. *)
Theorem scan_error_only_from_showing (stdout : console)
    (object_truth : N -> outcome bool) (object_str : N -> outcome pystr)
    (import_module : importer (option vuln_scanner.Args))
    (answer : option pystr) (w : world) :
  let menu :=
    main.run_vulnerability_scan object_truth object_str stdout (Return answer)
      import_module w in
  let dispatched :=
    run_plugin import_module (py "vuln_scan") (scan_args answer) in
  let after_banner := and_printed w (scan_banner answer) in
  let result_line (text : pystr) :=
    stdout (printed after_banner) ([NL] ++ text) in
  stdout (printed w) ([NL] ++ py "=== Vulnerability Scanner ===") = None ->
  stdout (printed w ++ [[NL] ++ py "=== Vulnerability Scanner ==="])
    ([NL] ++ py "[*] Scanning: " ++ asked_path answer) = None ->
  (forall e, dispatched = Raise e ->
     is_Exception (class e) = false /\ menu = (Raise e, after_banner))
  /\ (forall v, dispatched = Return v ->
      (main.truth object_truth v = Return false ->
         menu = (Return tt, after_banner))
      /\ (forall text,
            main.truth object_truth v = Return true ->
            main.to_str object_str v = Return text ->
            result_line text = None ->
            menu = (Return tt, and_printed after_banner [[NL] ++ text]))
      /\ (forall e,
            main.truth object_truth v = Raise e
            \/ main.truth object_truth v = Return true
               /\ (main.to_str object_str v = Raise e
                   \/ exists text,
                        main.to_str object_str v = Return text
                        /\ result_line text = Some e) ->
            menu
            = if is_Exception (class e)
              then print stdout ([NL] ++ py "[!] Scan error: " ++ message e)
                     after_banner
              else (Raise e, after_banner))).
Proof.
  intros menu dispatched after_banner result_line H1 H2. subst menu.
  rewrite menu_after_banner by assumption.
  fold dispatched. fold after_banner.
  unfold io_try, io_bind, lift. split.
  - intros e He. rewrite He.
    pose proof (run_plugin_raises_no_Exception _ _ _ _ He) as Hclass.
    rewrite Hclass. auto.
  - intros v ->. split; [|split].
    + intros ->. reflexivity.
    + intros text -> -> Hout. unfold print. subst result_line.
      cbv beta in Hout. rewrite Hout. reflexivity.
    + intros e [->|[-> [->|(text & -> & Hout)]]]; try reflexivity.
      unfold print at 1. subst result_line. cbv beta in Hout. rewrite Hout.
      reflexivity.
Qed.

Lemma scan_error_only_from_showing_witness :
  main.run_vulnerability_scan (fun _ => Return true) (fun _ => Return [])
    (ascii_console check_mark_error) (Return (Some (py "/tmp")))
    (shipped (posix [] disk) (ascii_console check_mark_error)) nothing
  = (Return tt,
     {| printed :=
          [ [NL] ++ py "=== Vulnerability Scanner ===";
            [NL] ++ py "[*] Scanning: /tmp";
            [NL] ++ py "[!] Scan error: 'ascii' codec can't encode character '\u2713' in position 3: ordinal not in range(128)" ];
        files_opened := [] |}).
Proof.
  pose proof (scan_error_only_from_showing (ascii_console check_mark_error)
                (fun _ => Return true) (fun _ => Return [])
                (shipped (posix [] disk) (ascii_console check_mark_error))
                (Some (py "/tmp")) nothing) as H.
  cbv zeta in H. destruct (H eq_refl eq_refl) as [_ Hv].
  destruct (Hv (Str ([NL] ++ py "[" ++ [vuln_scanner.CHECK_MARK]
                     ++ py "] No vulnerabilities found (0 files scanned)"
                     ++ [NL]))) as (_ & _ & Hfails);
    [vm_compute; reflexivity|].
  rewrite (Hfails check_mark_error).
  - vm_compute. reflexivity.
  - right. split; [reflexivity|]. right. eexists. split; [reflexivity|].
    vm_compute. reflexivity.
Defined.

(** X19.  With the modules the repository ships, what the menu prints
    after its banner is the scanner's answer for the path that was typed: the
    report or the path-not-found message the entry point returns, or, when
    the entry point raises an [Exception], the execution-failed line of the
    dispatcher with the text of that exception; an exception of the entry
    point that is not an [Exception] leaves the menu.  A missing or empty
    answer scans the current directory. *)
Theorem menu_shows_the_scanners_answer (stdout plugin_stdout : console)
    (object_truth : N -> outcome bool) (object_str : N -> outcome pystr)
    (fs : filesystem) (answer : option pystr) (w : world) :
  let menu (prompt : outcome (option pystr)) :=
    main.run_vulnerability_scan object_truth object_str stdout prompt
      (shipped fs plugin_stdout) in
  let scanned :=
    fst (vuln_scanner.run_plugin fs plugin_stdout (scan_args answer) nothing) in
  let after_banner := and_printed w (scan_banner answer) in
  stdout (printed w) ([NL] ++ py "=== Vulnerability Scanner ===") = None ->
  stdout (printed w ++ [[NL] ++ py "=== Vulnerability Scanner ==="])
    ([NL] ++ py "[*] Scanning: " ++ asked_path answer) = None ->
  (forall shown,
     scanned = Return shown
     \/ (exists e, scanned = Raise e /\ is_Exception (class e) = true
                   /\ shown = py "[!] Plugin execution failed: " ++ message e) ->
     stdout (printed after_banner) ([NL] ++ shown) = None ->
     menu (Return answer) w
     = (Return tt, and_printed after_banner [[NL] ++ shown]))
  /\ (forall e, scanned = Raise e -> is_Exception (class e) = false ->
      menu (Return answer) w = (Raise e, after_banner))
  /\ menu (Return None) = menu (Return (Some (py ".")))
  /\ menu (Return (Some [])) = menu (Return (Some (py "."))).
Proof.
  intros menu scanned after_banner H1 H2. subst menu. cbv beta.
  split; [|split; [|split; reflexivity]].
  - intros shown Hshown Hout.
    rewrite menu_after_banner by assumption. fold after_banner.
    rewrite dispatch_runs_scanner. fold scanned.
    assert (Hv : shielded (as_value scanned) = Return (Str shown)
                 /\ shown <> []).
    { destruct Hshown as [Hs|(e & Hs & Hclass & ->)].
      - split; [rewrite Hs; reflexivity|].
        intros ->. exact (report_not_empty _ _ _ _ Hs).
      - split; [|discriminate].
        rewrite Hs. cbn [as_value bind shielded]. rewrite Hclass. reflexivity. }
    destruct Hv as [-> Hne].
    unfold io_try, io_bind, lift. cbn [main.truth main.to_str].
    rewrite bool_decide_eq_false_2 by exact Hne. cbn [negb].
    unfold print. rewrite Hout. reflexivity.
  - intros e Hs Hclass.
    rewrite menu_after_banner by assumption. fold after_banner.
    rewrite dispatch_runs_scanner. fold scanned. rewrite Hs.
    cbn [as_value bind shielded]. rewrite Hclass.
    unfold io_try, io_bind, lift. rewrite Hclass. reflexivity.
Qed.

Lemma menu_shows_the_scanners_answer_witness :
  main.run_vulnerability_scan (fun _ => Return true) (fun _ => Return [])
    utf8_console (Return (Some long_path))
    (shipped (posix [] disk) utf8_console) nothing
  = (Return tt,
     {| printed :=
          [ [NL] ++ py "=== Vulnerability Scanner ===";
            [NL] ++ py "[*] Scanning: " ++ long_path;
            [NL] ++ py "[!] Plugin execution failed: [Errno 36] File name too long: '"
              ++ long_path ++ py "'" ];
        files_opened := [] |}).
Proof.
  pose proof (menu_shows_the_scanners_answer utf8_console utf8_console
                (fun _ => Return true) (fun _ => Return [])
                (posix [] disk) (Some long_path) nothing) as H.
  cbv zeta in H. destruct (H eq_refl eq_refl) as [Hshown _].
  rewrite (Hshown (py "[!] Plugin execution failed: [Errno 36] File name too long: '"
                   ++ long_path ++ py "'")).
  - vm_compute. reflexivity.
  - right. eexists. split; [vm_compute; reflexivity|].
    split; vm_compute; reflexivity.
  - reflexivity.
Defined.

End more_dispatch.

Section store.

Import config.

(** X20.  A value set is the value got, whatever the fallback; setting a
    key leaves every other key as it was; a second assignment to a key
    replaces the first; and a key that was never set gives the fallback. *)
Theorem set_then_get_config {V : Type} (CHARLOTTE_CONFIG : gmap pystr V)
    (key other : pystr) (value value' fallback : V) :
  get_config (set_config CHARLOTTE_CONFIG key value) key fallback = value
  /\ (other <> key ->
      get_config (set_config CHARLOTTE_CONFIG key value) other fallback
      = get_config CHARLOTTE_CONFIG other fallback)
  /\ set_config (set_config CHARLOTTE_CONFIG key value) key value'
     = set_config CHARLOTTE_CONFIG key value'
  /\ (CHARLOTTE_CONFIG !! key = None ->
      get_config CHARLOTTE_CONFIG key fallback = fallback).
Proof.
  unfold get_config, set_config. repeat split.
  - rewrite lookup_insert_eq. reflexivity.
  - intros Hne. rewrite lookup_insert_ne by congruence. reflexivity.
  - apply insert_insert_eq.
  - intros ->. reflexivity.
Qed.

End store.
